(** * agency-flow: the Firestore data hooks of [src/index.jsx]

    A shallow embedding of [useData] (the hook that subscribes to six
    Firestore collections and merges their snapshots into one React
    state object) and of [useActions] (the create / update / delete
    helpers), with the properties of the synchronisation layer stated
    and proved over it. *)

From stdpp Require Import gmap strings list fin_maps pretty.

Local Open Scope string_scope.

(** ** Data model *)

(** A Firestore field value.  Records are schema-less; only the
    distinction between values matters here. *)
Inductive Value : Type :=
| VNull
| VBool (b : bool)
| VNum (n : Z)
| VStr (s : string).

#[global] Instance Value_eq_dec : EqDecision Value.
Proof. solve_decision. Defined.

(** A JS object used as a field map. *)
Abbreviation Fields := (gmap string Value).

(** One document of a query snapshot: [doc.id] and [doc.data()]. *)
Record Doc : Type := mkDoc {
  doc_id : string;
  doc_data : Fields
}.

(** The six collection names of the [collections] array. *)
Inductive Collection : Type :=
| Tickets | Requests | Notes | Projects | Profiles | Quotas.

#[global] Instance Collection_eq_dec : EqDecision Collection.
Proof. solve_decision. Defined.

Definition collections : list Collection :=
  [Tickets; Requests; Notes; Projects; Profiles; Quotas].

Definition colName_string (colName : Collection) : string :=
  match colName with
  | Tickets => "tickets"
  | Requests => "requests"
  | Notes => "notes"
  | Projects => "projects"
  | Profiles => "profiles"
  | Quotas => "quotas"
  end.

(** The object held by [useState] in [useData]. *)
Record State : Type := mkState {
  tickets : list Fields;
  requests : list Fields;
  notes : list Fields;
  projects : list Fields;
  profiles : list Fields;
  quotas : list Fields;
  loading : bool;
  error : option string
}.

(** [useState({ tickets: [], ..., loading: true, error: null })] *)
Definition initialState : State :=
  {| tickets := []; requests := []; notes := []; projects := [];
     profiles := []; quotas := []; loading := true; error := None |}.

(** [state[colName]] *)
Definition slice (colName : Collection) (s : State) : list Fields :=
  match colName with
  | Tickets => tickets s
  | Requests => requests s
  | Notes => notes s
  | Projects => projects s
  | Profiles => profiles s
  | Quotas => quotas s
  end.

(** [{ ...prevState, [colName]: data }] *)
Definition set_slice (colName : Collection) (data : list Fields) (s : State) : State :=
  match colName with
  | Tickets => mkState data (requests s) (notes s) (projects s) (profiles s) (quotas s) (loading s) (error s)
  | Requests => mkState (tickets s) data (notes s) (projects s) (profiles s) (quotas s) (loading s) (error s)
  | Notes => mkState (tickets s) (requests s) data (projects s) (profiles s) (quotas s) (loading s) (error s)
  | Projects => mkState (tickets s) (requests s) (notes s) data (profiles s) (quotas s) (loading s) (error s)
  | Profiles => mkState (tickets s) (requests s) (notes s) (projects s) data (quotas s) (loading s) (error s)
  | Quotas => mkState (tickets s) (requests s) (notes s) (projects s) (profiles s) data (loading s) (error s)
  end.

(** [{ ...prevState, loading: b }] *)
Definition set_loading (b : bool) (s : State) : State :=
  mkState (tickets s) (requests s) (notes s) (projects s) (profiles s) (quotas s) b (error s).

(** [{ ...prevState, error: e }] *)
Definition set_error (e : option string) (s : State) : State :=
  mkState (tickets s) (requests s) (notes s) (projects s) (profiles s) (quotas s) (loading s) e.

(** ** Snapshot decoding *)

(** Object spread [{ ...target, ...source }]: the own properties of
    [source] are copied over those of [target]. *)
Definition spread (target source : Fields) : Fields := source ∪ target.

(** [doc => ({ id: doc.id, ...doc.data() })] *)
Definition decode (doc : Doc) : Fields :=
  spread {[ "id" := VStr (doc_id doc) ]} (doc_data doc).

(** [snapshot.docs.map(doc => ({ id: doc.id, ...doc.data() }))] *)
Definition decode_docs (docs : list Doc) : list Fields := map decode docs.

(** ** The state updates of [useData]

    [setState] is always called with an updater function
    [prevState => nextState]; the three updaters of the hook are
    represented by their closures. *)
Inductive Updater : Type :=
| MergeSnapshot (colName : Collection) (data : list Fields)
    (* prevState => ({ ...prevState, [colName]: data,
                       loading: loadedCollections < collections.length - 1 }) *)
| ClearLoading
    (* prevState => ({ ...prevState, loading: false }) *)
| ReportError (colName : Collection).
    (* prevState => ({ ...prevState, error: `Erreur de lecture ${colName}` }) *)

(** [`Erreur de lecture ${colName}`] *)
Definition error_message (colName : Collection) : string :=
  String.append "Erreur de lecture " (colName_string colName).

(** Running an updater.  [MergeSnapshot] reads the variable
    [loadedCollections] of the enclosing effect when it runs, so its
    current value is an argument. *)
Definition run_updater (loadedCollections : nat) (u : Updater) (prevState : State) : State :=
  match u with
  | MergeSnapshot colName data =>
      set_loading (loadedCollections <? length collections - 1)%nat
                  (set_slice colName data prevState)
  | ClearLoading => set_loading false prevState
  | ReportError colName => set_error (Some (error_message colName)) prevState
  end.

(** An entry of React's update queue: the updater, and the state React
    computed from it at the [setState] call when it did so. *)
Record Update : Type := mkUpdate {
  action : Updater;
  eagerState : option State
}.

Definition run_update (loadedCollections : nat) (prevState : State) (u : Update) : State :=
  match eagerState u with
  | Some s => s
  | None => run_updater loadedCollections (action u) prevState
  end.

(** The variables of one run of the effect of [useData]: [mounted],
    [loadedCollections], the [state.loading] of the render whose effect
    it is (the callbacks close over that render's [state]), the
    [unsubscribers] array, and the listeners it has open on the store. *)
Record Effect : Type := mkEffect {
  mounted : bool;
  loadedCollections : nat;
  state_loading : bool;
  unsubscribers : list Collection;
  listening : list Collection
}.

(** The hook instance: the state the component last rendered with (what
    [useData] returns), the updates queued since, and the current run
    of the effect, if there has been one. *)
Record Hook : Type := mkHook {
  state : State;
  queue : list Update;
  effect : option Effect
}.

(** The hook at the first render of the component. *)
Definition useData_init : Hook :=
  {| state := initialState; queue := []; effect := None |}.

(** [!userId] for [userId = user?.uid], a string or [undefined]. *)
Definition falsy (userId : option string) : bool :=
  match userId with
  | None => true
  | Some s => bool_decide (s = "")
  end.

(** What arrives at the hook: a snapshot or a failure of one collection's
    listener, a render of the component, the cleanup of the effect
    (unmount), and a render with a changed [userId]. *)
Inductive Event : Type :=
| Snapshot (colName : Collection) (docs : list Doc)
| Failure (colName : Collection)
| Render
| Stop
| Identity (userId : option string).

Section UseData.

(** React runs an updater either at the [setState] call, when no
    update is pending on the component, or at the next render.
    Whether it takes the first path also depends on the other hooks
    of the component, so the choice is a parameter. *)
Context (eager : Hook → bool).

(** [setState(updater)], called while [loadedCollections] is [n]. *)
Definition setState (n : nat) (u : Updater) (h : Hook) : Hook :=
  match queue h with
  | [] =>
      if eager h
      then mkHook (state h) [mkUpdate u (Some (run_updater n u (state h)))] (effect h)
      else mkHook (state h) [mkUpdate u None] (effect h)
  | _ :: _ => mkHook (state h) (queue h ++ [mkUpdate u None]) (effect h)
  end.

(** A render: the queued updates are applied in order; an updater not
    yet run reads [loadedCollections] as it is now. *)
Definition render (h : Hook) : Hook :=
  let n := from_option loadedCollections 0 (effect h) in
  mkHook (foldl (run_update n) (state h) (queue h)) [] (effect h).

(** The body of the effect: [if (!userId) return;], then one
    [onSnapshot] per collection. *)
Definition subscribe (e : Effect) (colName : Collection) : Effect :=
  mkEffect (mounted e) (loadedCollections e) (state_loading e)
           (unsubscribers e ++ [colName]) (listening e ++ [colName]).

(** [state.loading] in the callbacks is that of the state the component
    rendered with when the effect ran. *)
Definition start (userId : option string) (h : Hook) : Hook :=
  if falsy userId then h
  else
    let e := mkEffect true 0 (loading (state h)) [] [] in
    mkHook (state h) (queue h) (Some (foldl subscribe e collections)).

(** The snapshot callback of collection [colName]. *)
Definition onNext (colName : Collection) (docs : list Doc) (h : Hook) : Hook :=
  match effect h with
  | None => h
  | Some e =>
      if negb (mounted e) then h
      else
        let data := decode_docs docs in
        let h1 := setState (loadedCollections e) (MergeSnapshot colName data) h in
        if mounted e && state_loading e then
          let n := S (loadedCollections e) in
          let e' := mkEffect (mounted e) n (state_loading e)
                             (unsubscribers e) (listening e) in
          let h2 := mkHook (state h1) (queue h1) (Some e') in
          if (n =? length collections)%nat then setState n ClearLoading h2 else h2
        else h1
  end.

(** The error callback of collection [colName]. *)
Definition onError (colName : Collection) (h : Hook) : Hook :=
  match effect h with
  | None => h
  | Some e =>
      if mounted e then setState (loadedCollections e) (ReportError colName) h
      else h
  end.

(** The cleanup returned by the effect:
    [mounted = false; unsubscribers.forEach(unsub => unsub())]. *)
Definition unsub (e : Effect) (colName : Collection) : Effect :=
  mkEffect (mounted e) (loadedCollections e) (state_loading e)
           (unsubscribers e) (filter (λ c, c ≠ colName) (listening e)).

(** Without an effect there is no cleanup to run. *)
Definition stop (h : Hook) : Hook :=
  match effect h with
  | None => h
  | Some e =>
      let e' := mkEffect false (loadedCollections e) (state_loading e)
                         (unsubscribers e) (listening e) in
      mkHook (state h) (queue h) (Some (foldl unsub e' (unsubscribers e')))
  end.

(** One event.  When [userId] changes, React renders, runs the cleanup
    of the previous effect and then the effect again. *)
Definition step (h : Hook) (ev : Event) : Hook :=
  match ev with
  | Snapshot colName docs => onNext colName docs h
  | Failure colName => onError colName h
  | Render => render h
  | Stop => stop h
  | Identity userId => start userId (stop (render h))
  end.

(** The events of a trace, in order. *)
Definition run (evs : list Event) (h : Hook) : Hook := foldl step h evs.

End UseData.

(** ** [useActions]: the create / update / delete helpers *)

(** The settlement of a promise (or of a call that may throw). *)
Inductive Result (A : Type) : Type :=
| Resolved (a : A)
| Rejected (reason : string).
Arguments Resolved {A} a.
Arguments Rejected {A} reason.

(** [doc(db, path, id)] *)
Record DocRef : Type := mkDocRef {
  ref_path : string;
  ref_id : string
}.

Module Async.

(** An awaited computation over the backing store [S]: it settles,
    and leaves the store in some state. *)
Definition M (S A : Type) : Type := S → Result A * S.

Definition ret {S A : Type} (a : A) : M S A := λ st, (Resolved a, st).

Definition bind {S A B : Type} (m : M S A) (k : A → M S B) : M S B :=
  λ st, match m st with
        | (Resolved a, st') => k a st'
        | (Rejected e, st') => (Rejected e, st')
        end.

(** A call that may throw without touching the store. *)
Definition lift {S A : Type} (r : Result A) : M S A := λ st, (r, st).

(** [try { body } catch (e) { handler(e) }] *)
Definition try_catch {S A : Type} (body : M S A) (handler : string → M S A) : M S A :=
  λ st, match body st with
        | (Resolved a, st') => (Resolved a, st')
        | (Rejected e, st') => handler e st'
        end.

End Async.

Notation "'await' x ':=' m1 'in' m2" := (Async.bind m1 (λ x, m2))
  (at level 10, x name, m1 at level 100, m2 at level 200, only parsing).

Section UseActions.

(** The Firestore client: the type of the store and the calls the
    helpers make on it. *)
Context {Store : Type}.
Context (appId : string).
Context (serverTimestamp : Value).
Context (doc : string → string → Result DocRef).
Context (addDoc : string → Fields → Async.M Store DocRef).
Context (updateDoc : DocRef → Fields → Async.M Store ()).
Context (deleteDoc : DocRef → Async.M Store ()).

(** The arguments of the hook. *)
Context (collectionName : string) (userId : string).

(** [`artifacts/${appId}/${collectionName}`] *)
Definition path : string :=
  String.append "artifacts/" (String.append appId (String.append "/" collectionName)).

(** [{ ...data, createdAt: serverTimestamp(), createdBy: userId }] *)
Definition created (data : Fields) : Fields :=
  <["createdBy" := VStr userId]> (<["createdAt" := serverTimestamp]> (spread ∅ data)).

(** [{ ...data, updatedAt: serverTimestamp() }] *)
Definition updated (data : Fields) : Fields :=
  <["updatedAt" := serverTimestamp]> (spread ∅ data).

Definition add (data : Fields) : Async.M Store bool :=
  Async.try_catch
    (await _ := addDoc path (created data) in Async.ret true)
    (λ e, Async.ret false).

Definition update (id : string) (data : Fields) : Async.M Store bool :=
  Async.try_catch
    (await docRef := Async.lift (doc path id) in
     await _ := updateDoc docRef (updated data) in
     Async.ret true)
    (λ e, Async.ret false).

Definition remove (id : string) : Async.M Store bool :=
  Async.try_catch
    (await docRef := Async.lift (doc path id) in
     await _ := deleteDoc docRef in
     Async.ret true)
    (λ e, Async.ret false).

End UseActions.

(** ** An in-memory store

    A small stand-in for the Firestore client, on which the helpers of
    [useActions] can be run: writes are rejected while the client is
    offline, [doc] throws on an empty id, and [updateDoc] is rejected
    when the document does not exist. *)
Record MemStore : Type := mkMemStore {
  online : bool;
  documents : list (DocRef * Fields)
}.

#[global] Instance DocRef_eq_dec : EqDecision DocRef.
Proof. solve_decision. Defined.

Definition mem_doc (path id : string) : Result DocRef :=
  if bool_decide (id = "") then Rejected "invalid-argument"
  else Resolved (mkDocRef path id).

Definition mem_addDoc (path : string) (fields : Fields) : Async.M MemStore DocRef :=
  λ st,
    if online st
    then let ref := mkDocRef path (pretty (length (documents st))) in
         (Resolved ref, mkMemStore true (documents st ++ [(ref, fields)]))
    else (Rejected "unavailable", st).

Definition mem_updateDoc (ref : DocRef) (fields : Fields) : Async.M MemStore () :=
  λ st,
    if negb (online st) then (Rejected "unavailable", st)
    else if bool_decide (ref ∈ (documents st).*1)
    then (Resolved (),
          mkMemStore true
            (map (λ d, if bool_decide (d.1 = ref) then (ref, fields ∪ d.2) else d)
                 (documents st)))
    else (Rejected "not-found", st).

Definition mem_deleteDoc (ref : DocRef) : Async.M MemStore () :=
  λ st,
    if online st
    then (Resolved (), mkMemStore true (filter (λ d, d.1 ≠ ref) (documents st)))
    else (Rejected "unavailable", st).

(** ** Traces *)

(** The collection a snapshot event belongs to. *)
Definition snapshot_of (ev : Event) : option Collection :=
  match ev with
  | Snapshot colName _ => Some colName
  | _ => None
  end.

(** The collections that have delivered at least one snapshot in a
    trace, one entry per delivery. *)
Definition delivered (evs : list Event) : list Collection := omap snapshot_of evs.

(** Every one of the six collections has delivered. *)
Definition all_delivered (evs : list Event) : bool :=
  forallb (λ colName, bool_decide (colName ∈ delivered evs)) collections.

(** Deliveries of the store's listeners: snapshots and failures. *)
Definition is_delivery (ev : Event) : bool :=
  match ev with
  | Snapshot _ _ | Failure _ => true
  | _ => false
  end.

(** Events of one run of the effect: deliveries and renders. *)
Definition is_live (ev : Event) : bool :=
  match ev with
  | Snapshot _ _ | Failure _ | Render => true
  | _ => false
  end.

(** Everything but a change of identity. *)
Definition keeps_identity (ev : Event) : bool :=
  match ev with
  | Identity _ => false
  | _ => true
  end.

(** The two extreme choices of React: run every updater it can at the
    call, or run them all at the render. *)
Definition at_call : Hook → bool := λ _, true.
Definition at_render : Hook → bool := λ _, false.

(** The effect is running: its callbacks are registered and [mounted]
    is true. *)
Definition is_mounted (h : Hook) : bool :=
  from_option mounted false (effect h).

(** The listeners the hook has open on the store. *)
Definition listeners (h : Hook) : list Collection :=
  from_option listening [] (effect h).

(** Two states that differ at most in [loading]. *)
Definition same_data (s1 s2 : State) : Prop :=
  (∀ colName, slice colName s1 = slice colName s2) ∧ error s1 = error s2.

(** The state a render would commit if [loadedCollections] were [m]. *)
Definition pending (m : nat) (h : Hook) : State :=
  foldl (run_update m) (state h) (queue h).

(** Every state computed at a [setState] call and still queued
    satisfies [P]. *)
Definition eager_states (P : State → Prop) (h : Hook) : Prop :=
  Forall (λ u, ∀ s, eagerState u = Some s → P s) (queue h).

(** The effect is running with [state.loading] closed over as true and
    has counted [k] snapshots; the pending state is loading while the
    count stays below [collections.length - 1], and is not once it has
    reached [collections.length]. *)
Definition counted (k : nat) (h : Hook) : Prop :=
  (∃ e, effect h = Some e ∧ mounted e = true ∧ state_loading e = true
        ∧ loadedCollections e = k) ∧
  ((k < length collections - 1)%nat →
   ∀ m, (m < length collections - 1)%nat → loading (pending m h) = true) ∧
  ((length collections ≤ k)%nat →
   ∀ m, (length collections ≤ m)%nat → loading (pending m h) = false).

(** The effect is running with [state.loading] closed over as false:
    its counter is never incremented. *)
Definition stale (h : Hook) : Prop :=
  ∃ e, effect h = Some e ∧ mounted e = true ∧ state_loading e = false
       ∧ loadedCollections e = 0.

(** Once an error is recorded, it is recorded in the rendered state
    and in every state computed from it. *)
Definition error_recorded (h : Hook) : Prop :=
  is_Some (error (state h)) ∧ eager_states (λ s, is_Some (error s)) h.

(** The listeners left open once each collection of [closed] has been
    unsubscribed. *)
Definition close_all (open closed : list Collection) : list Collection :=
  foldl (λ li colName, filter (λ c, c ≠ colName) li) open closed.

(** ** Sample data *)

Definition doc_a : Doc := mkDoc "a1" {[ "title" := VStr "Logo" ]}.
Definition doc_b : Doc := mkDoc "b2" {[ "id" := VStr "legacy-7"; "hours" := VNum 3 ]}.

(** One snapshot from each collection. *)
Definition one_each (docs : list Doc) : list Event :=
  map (λ colName, Snapshot colName docs) collections.

(** Six snapshots, none of them from [quotas], a render after each. *)
Definition five_of_six : list Event :=
  [Snapshot Tickets [doc_a]; Render; Snapshot Requests []; Render;
   Snapshot Tickets [doc_a; doc_b]; Render; Snapshot Notes []; Render;
   Snapshot Projects []; Render; Snapshot Profiles [doc_b]; Render].

(** The hook of a component mounted with identity [u1]. *)
Definition started : Hook := start (Some "u1") useData_init.

(** ** Store paths *)

(** [import.meta.env.VITE_APP_ID || 'default-agency-app'] *)
Definition appId_of (VITE_APP_ID : option string) : string :=
  match VITE_APP_ID with
  | Some s => if bool_decide (s = "") then "default-agency-app" else s
  | None => "default-agency-app"
  end.

(** [`artifacts/${appId}/${colName}`], the path a listener of [useData]
    is opened on. *)
Definition snapshot_path (appId : string) (colName : Collection) : string :=
  String.append "artifacts/"
    (String.append appId (String.append "/" (colName_string colName))).

(** ** What a trace delivered last *)

(** The documents of the last snapshot of [colName] in a trace. *)
Fixpoint last_snapshot (colName : Collection) (evs : list Event) : option (list Doc) :=
  match evs with
  | [] => None
  | ev :: evs' =>
      match last_snapshot colName evs' with
      | Some docs => Some docs
      | None =>
          match ev with
          | Snapshot c docs => if decide (c = colName) then Some docs else None
          | _ => None
          end
      end
  end.

(** The collection of the last failure in a trace. *)
Fixpoint last_failure (evs : list Event) : option Collection :=
  match evs with
  | [] => None
  | ev :: evs' =>
      match last_failure evs' with
      | Some colName => Some colName
      | None =>
          match ev with
          | Failure colName => Some colName
          | _ => None
          end
      end
  end.

(** Snapshots delivered one at a time, the component rendering after
    each. *)
Definition one_by_one (deliveries : list (Collection * list Doc)) : list Event :=
  flat_map (λ d, [Snapshot d.1 d.2; Render]) deliveries.

(** The listeners are those of a running effect, one per collection, or
    there is none. *)
Definition tidy (h : Hook) : Prop :=
  match effect h with
  | None => True
  | Some e =>
      unsubscribers e = collections
      ∧ listening e = if mounted e then collections else []
  end.

(** [counted], and a rendered [loading] that is false stays false
    whenever the component renders next. *)
Definition settled (k : nat) (h : Hook) : Prop :=
  counted k h
  ∧ ((k < length collections - 1)%nat → loading (state h) = true)
  ∧ (loading (state h) = false →
     ∀ m, (k ≤ m)%nat → loading (pending m h) = false).

(** [P] holds of the rendered state and of every state computed from
    it. *)
Definition everywhere (P : State → Prop) (h : Hook) : Prop :=
  P (state h) ∧ eager_states P h.

(** The error is the message of some collection. *)
Definition error_named (s : State) : Prop :=
  ∃ colName, error s = Some (error_message colName).

(** ** [useAuth] *)

Module UseAuth.

(** The Firebase user; the application reads its [uid] only. *)
Record User : Type := mkUser { uid : string }.

(** The two state cells of the hook. *)
Record AuthState : Type := mkAuthState {
  user : option User;
  loading : bool
}.

(** [useState(null)], [useState(true)] *)
Definition init : AuthState := mkAuthState None true.

Section Callback.

Context {Backend Credential : Type}.
Context (signInAnonymously : Async.M Backend Credential).

(** The callback given to [onAuthStateChanged]. *)
Definition authCallback (currentUser : option User) (a : AuthState)
  : Async.M Backend AuthState :=
  await a1 := match currentUser with
              | Some u => Async.ret (mkAuthState (Some u) (loading a))
              | None =>
                  Async.try_catch
                    (await _ := signInAnonymously in Async.ret a)
                    (λ e, Async.ret a)
              end in
  Async.ret (mkAuthState (user a1) false).

(** The callbacks of a sequence of auth state changes, in order. *)
Fixpoint authChanges (users : list (option User)) (a : AuthState)
  : Async.M Backend AuthState :=
  match users with
  | [] => Async.ret a
  | currentUser :: users' =>
      await a' := authCallback currentUser a in authChanges users' a'
  end.

End Callback.

(** The last user of a sequence of auth state changes. *)
Fixpoint last_user (users : list (option User)) (previous : option User) : option User :=
  match users with
  | [] => previous
  | Some u :: users' => last_user users' (Some u)
  | None :: users' => last_user users' previous
  end.

End UseAuth.

(** ** The components

    An element is represented by its component and the props it is
    given; class names and static markup are left out. *)

(** JS truthiness of a field value; [None] is [undefined]. *)
Definition truthy (v : option Value) : bool :=
  match v with
  | None => false
  | Some VNull => false
  | Some (VBool b) => b
  | Some (VNum n) => negb (n =? 0)%Z
  | Some (VStr s) => negb (bool_decide (s = ""))
  end.

(** [a || b] *)
Definition js_or (a b : option Value) : option Value :=
  if truthy a then a else b.

(** [item.name || item.title || item.id] *)
Definition item_label (item : Fields) : option Value :=
  js_or (js_or (item !! "name") (item !! "title")) (item !! "id").

(** One [<li key={item.id}>] of [DataList]. *)
Record Row : Type := mkRow {
  row_key : option Value;
  row_text : option Value
}.

Record DataListView : Type := mkDataListView {
  rows : list Row;
  empty_notice : bool
}.

(** [data.slice(0, 5).map(...)] and [data.length === 0 && <p>...</p>] *)
Definition DataList (data : list Fields) : DataListView :=
  {| rows := map (λ item, mkRow (item !! "id") (item_label item)) (take 5 data);
     empty_notice := bool_decide (length data = 0%nat) |}.

Module Pages.

(** The page components with their props. *)
Inductive Element : Type :=
| Dashboard (tickets requests notes : list Fields) (userId : string)
| Timetracking (tickets projects : list Fields) (userId : string)
| Planning (requests : list Fields) (userId : string)
| Notes (notes : list Fields) (userId : string)
| AgencyView (tickets requests quotas : list Fields)
| AdminSettings (projects profiles : list Fields).

(** The component of an element, without its props. *)
Definition component (el : Element) : string :=
  match el with
  | Dashboard _ _ _ _ => "Dashboard"
  | Timetracking _ _ _ => "Timetracking"
  | Planning _ _ => "Planning"
  | Notes _ _ => "Notes"
  | AgencyView _ _ _ => "AgencyView"
  | AdminSettings _ _ => "AdminSettings"
  end.

End Pages.

(** The three lists of [Dashboard]. *)
Definition Dashboard_lists (tickets requests notes : list Fields)
  : list (string * DataListView) :=
  [("Tickets Actifs", DataList tickets);
   ("Demandes en Cours", DataList requests);
   ("Notes Récentes", DataList notes)].

(** [NavItem]: highlighted when [currentPage === page]; a click calls
    [setCurrentPage(page)]. *)
Record NavItem : Type := mkNavItem {
  nav_label : string;
  nav_page : string;
  nav_active : bool
}.

(** The entries of the sidebar: label and page. *)
Definition nav_entries : list (string * string) :=
  [("Tableau de Bord", "dashboard"); ("Suivi du Temps", "timetracking");
   ("Planification", "planning"); ("Notes", "notes");
   ("Vue Agence", "agency"); ("Admin / Projets", "settings")].

Record SidebarView : Type := mkSidebarView {
  nav_items : list NavItem;
  uid_shown : option string
}.

(** [Sidebar]: the six items and [user?.uid.substring(0, 8)]. *)
Definition Sidebar (currentPage : string) (user : option UseAuth.User) : SidebarView :=
  {| nav_items := map (λ e, mkNavItem e.1 e.2 (bool_decide (currentPage = e.2))) nav_entries;
     uid_shown := (λ u, String.substring 0 8 (UseAuth.uid u)) <$> user |}.

(** [renderPage], the [switch (currentPage)] of [App]. *)
Definition renderPage (currentPage : string) (data : State) (user : UseAuth.User)
  : Pages.Element :=
  if bool_decide (currentPage = "dashboard")
  then Pages.Dashboard (tickets data) (requests data) (notes data) (UseAuth.uid user)
  else if bool_decide (currentPage = "timetracking")
  then Pages.Timetracking (tickets data) (projects data) (UseAuth.uid user)
  else if bool_decide (currentPage = "planning")
  then Pages.Planning (requests data) (UseAuth.uid user)
  else if bool_decide (currentPage = "notes")
  then Pages.Notes (notes data) (UseAuth.uid user)
  else if bool_decide (currentPage = "agency")
  then Pages.AgencyView (tickets data) (requests data) (quotas data)
  else if bool_decide (currentPage = "settings")
  then Pages.AdminSettings (projects data) (profiles data)
  else Pages.Dashboard (tickets data) (requests data) (notes data) (UseAuth.uid user).

(** What [App] returns. *)
Inductive Screen : Type :=
| Spinner
| DataError (dataError : string)
| Connecting
| Layout (sidebar : SidebarView) (page : Pages.Element).

(** [App], given the state of its three hooks. *)
Definition App (currentPage : string) (auth : UseAuth.AuthState) (data : State) : Screen :=
  if UseAuth.loading auth || loading data then Spinner
  else if negb (falsy (error data)) then DataError (default "" (error data))
  else match UseAuth.user auth with
       | None => Connecting
       | Some user => Layout (Sidebar currentPage (Some user)) (renderPage currentPage data user)
       end.

(** The page after clicks on the sidebar items of the given positions,
    from [useState('dashboard')]. *)
Definition navigate (clicks : list nat) : string :=
  foldl (λ currentPage i, from_option snd currentPage (nav_entries !! i))
        "dashboard" clicks.

(** ** Properties of the state updaters *)

Lemma slice_set_slice (colName other : Collection) (data : list Fields) (s : State) :
  slice other (set_slice colName data s)
  = if decide (other = colName) then data else slice other s.
Proof. destruct colName, other; reflexivity. Qed.

Lemma error_set_slice (colName : Collection) (data : list Fields) (s : State) :
  error (set_slice colName data s) = error s.
Proof. destruct colName; reflexivity. Qed.

Lemma slice_set_loading (colName : Collection) (b : bool) (s : State) :
  slice colName (set_loading b s) = slice colName s.
Proof. destruct colName; reflexivity. Qed.

Lemma slice_set_error (colName : Collection) (e : option string) (s : State) :
  slice colName (set_error e s) = slice colName s.
Proof. destruct colName; reflexivity. Qed.

Lemma same_data_refl (s : State) : same_data s s.
Proof. split; reflexivity. Qed.

Lemma same_data_run_updater (n1 n2 : nat) (u : Updater) (s1 s2 : State) :
  same_data s1 s2 → same_data (run_updater n1 u s1) (run_updater n2 u s2).
Proof.
  intros [Hs He]. destruct u as [colName data | | colName]; simpl; split.
  - intros c. rewrite !slice_set_loading, !slice_set_slice.
    destruct (decide (c = colName)); [reflexivity | apply Hs].
  - simpl. rewrite !error_set_slice. exact He.
  - intros c. rewrite !slice_set_loading. apply Hs.
  - exact He.
  - intros c. rewrite !slice_set_error. apply Hs.
  - reflexivity.
Qed.

Lemma same_data_foldl (n1 n2 : nat) (q : list Update) (s1 s2 : State) :
  same_data s1 s2 →
  same_data (foldl (run_update n1) s1 q) (foldl (run_update n2) s2 q).
Proof.
  revert s1 s2. induction q as [| u q IH]; intros s1 s2 H; simpl; [exact H |].
  apply IH. unfold run_update. destruct (eagerState u).
  - apply same_data_refl.
  - apply same_data_run_updater, H.
Qed.

Lemma state_render (h : Hook) :
  state (render h) = pending (from_option loadedCollections 0 (effect h)) h.
Proof. reflexivity. Qed.

Lemma pending_render (m : nat) (h : Hook) :
  pending m (render h) = state (render h).
Proof. reflexivity. Qed.

Lemma same_data_pending (m1 m2 : nat) (h : Hook) :
  same_data (pending m1 h) (pending m2 h).
Proof. apply same_data_foldl, same_data_refl. Qed.

(** ** The update queue *)

Section Queue.

Context (eager : Hook → bool).

Lemma state_setState (n : nat) (u : Updater) (h : Hook) :
  state (setState eager n u h) = state h.
Proof. unfold setState. destruct (queue h), (eager h); reflexivity. Qed.

Lemma effect_setState (n : nat) (u : Updater) (h : Hook) :
  effect (setState eager n u h) = effect h.
Proof. unfold setState. destruct (queue h), (eager h); reflexivity. Qed.

(** Whichever way React takes, the queued update acts on the pending
    state as the updater run with [loadedCollections] read either at
    the call or at the render. *)
Lemma pending_setState (m n : nat) (u : Updater) (h : Hook) :
  ∃ k, (k = m ∨ k = n) ∧
       pending m (setState eager n u h) = run_updater k u (pending m h).
Proof.
  unfold setState, pending. destruct (queue h) as [| u0 q] eqn:Hq.
  - destruct (eager h); simpl.
    + exists n. split; [right; reflexivity | reflexivity].
    + exists m. split; [left; reflexivity | reflexivity].
  - exists m. split; [left; reflexivity |].
    cbn [queue state]. rewrite foldl_app. reflexivity.
Qed.

End Queue.

(** ** The callbacks *)

Section Callbacks.

Context (eager : Hook → bool).

Lemma onNext_unmounted (colName : Collection) (docs : list Doc) (h : Hook) :
  is_mounted h = false → onNext eager colName docs h = h.
Proof.
  unfold is_mounted, onNext. destruct (effect h) as [e |]; simpl; [| reflexivity].
  intros ->. reflexivity.
Qed.

Lemma onError_unmounted (colName : Collection) (h : Hook) :
  is_mounted h = false → onError eager colName h = h.
Proof.
  unfold is_mounted, onError. destruct (effect h) as [e |]; simpl; [| reflexivity].
  intros ->. reflexivity.
Qed.

Lemma state_onNext (colName : Collection) (docs : list Doc) (h : Hook) :
  state (onNext eager colName docs h) = state h.
Proof.
  unfold onNext. destruct (effect h) as [e |]; [| reflexivity].
  destruct (mounted e); simpl; [| reflexivity].
  destruct (state_loading e); [| apply state_setState].
  destruct (_ =? _)%nat; [rewrite state_setState |]; simpl; apply state_setState.
Qed.

Lemma state_onError (colName : Collection) (h : Hook) :
  state (onError eager colName h) = state h.
Proof.
  unfold onError. destruct (effect h) as [e |]; [| reflexivity].
  destruct (mounted e); [apply state_setState | reflexivity].
Qed.

(** A snapshot counts, whatever its collection, when the effect
    closed over a state that was loading. *)
Lemma effect_onNext (colName : Collection) (docs : list Doc) (h : Hook) (e : Effect) :
  effect h = Some e → mounted e = true →
  effect (onNext eager colName docs h)
  = Some (mkEffect true
            (if state_loading e then S (loadedCollections e) else loadedCollections e)
            (state_loading e) (unsubscribers e) (listening e)).
Proof.
  intros He Hm. unfold onNext. rewrite He, Hm. simpl.
  destruct e as [mo n sl us li]; simpl in *; subst mo.
  destruct sl; [| rewrite effect_setState; exact He].
  destruct (_ =? _)%nat; [rewrite effect_setState |]; reflexivity.
Qed.

Lemma effect_onError (colName : Collection) (h : Hook) :
  effect (onError eager colName h) = effect h.
Proof.
  unfold onError. destruct (effect h) as [e |] eqn:He; [| exact He].
  destruct (mounted e); [rewrite effect_setState |]; exact He.
Qed.

Lemma pending_onNext (m : nat) (colName : Collection) (docs : list Doc)
      (h : Hook) (e : Effect) :
  effect h = Some e → mounted e = true →
  ∃ k, (k = m ∨ k = loadedCollections e) ∧
       pending m (onNext eager colName docs h)
       = let s := run_updater k (MergeSnapshot colName (decode_docs docs)) (pending m h) in
         if state_loading e && (S (loadedCollections e) =? length collections)%nat
         then set_loading false s else s.
Proof.
  intros He Hm. unfold onNext. rewrite He, Hm. simpl negb. cbv iota.
  destruct (pending_setState eager m (loadedCollections e)
              (MergeSnapshot colName (decode_docs docs)) h) as (k & Hk & Hp).
  exists k. split; [exact Hk |].
  destruct (state_loading e); simpl andb; cbv iota; [| exact Hp].
  cbv zeta. destruct (_ =? _)%nat; [| exact Hp].
  match goal with
  | |- pending m (setState eager ?n ClearLoading ?h2) = _ =>
      destruct (pending_setState eager m n ClearLoading h2) as (k' & _ & Hp')
  end.
  rewrite Hp'. simpl run_updater at 1. f_equal. exact Hp.
Qed.

Lemma pending_onError (m : nat) (colName : Collection) (h : Hook) :
  is_mounted h = true →
  pending m (onError eager colName h)
  = set_error (Some (error_message colName)) (pending m h).
Proof.
  unfold is_mounted, onError. destruct (effect h) as [e |]; simpl; [| discriminate].
  intros ->.
  destruct (pending_setState eager m (loadedCollections e) (ReportError colName) h)
    as (k & _ & Hp).
  exact Hp.
Qed.

End Callbacks.

(** ** Readiness follows the number of snapshots *)

Section Readiness.

Context (eager : Hook → bool).

Lemma start_truthy (userId : option string) (h : Hook) :
  falsy userId = false →
  start userId h
  = mkHook (state h) (queue h)
      (Some (mkEffect true 0 (loading (state h)) collections collections)).
Proof. unfold start. intros ->. reflexivity. Qed.

Lemma counted_start (userId : option string) (h : Hook) :
  falsy userId = false → queue h = [] → loading (state h) = true →
  counted 0 (start userId h).
Proof.
  intros Hu Hq Hl. rewrite (start_truthy _ _ Hu). unfold counted, pending.
  cbn [effect state queue]. rewrite Hq. simpl. rewrite Hl.
  split; [eexists; repeat split |]. split; [intros _ m _; reflexivity | lia].
Qed.

Lemma loading_merge (k : nat) (colName : Collection) (data : list Fields) (s : State) :
  loading (run_updater k (MergeSnapshot colName data) s) = (k <? 5)%nat.
Proof. reflexivity. Qed.

Lemma counted_onNext (k : nat) (colName : Collection) (docs : list Doc) (h : Hook) :
  counted k h → counted (S k) (onNext eager colName docs h).
Proof.
  intros [(e & He & Hm & Hsl & Hn) [Hlo Hhi]]. change (length collections) with 6 in *.
  split; [| split].
  - eexists. split; [apply (effect_onNext eager _ _ _ _ He Hm) |].
    rewrite Hsl, Hn. repeat split.
  - intros Hk m Hm4.
    destruct (pending_onNext eager m colName docs h e He Hm) as (j & Hj & ->).
    rewrite Hsl, Hn. change (length collections) with 6 in *. cbv zeta.
    replace (S k =? 6)%nat with false by (symmetry; apply Nat.eqb_neq; lia).
    simpl andb. cbv iota. rewrite loading_merge. apply Nat.ltb_lt.
    destruct Hj as [-> | ->]; lia.
  - intros Hk m Hm6.
    destruct (pending_onNext eager m colName docs h e He Hm) as (j & Hj & ->).
    rewrite Hsl, Hn. change (length collections) with 6 in *. cbv zeta.
    destruct (S k =? 6)%nat eqn:E; simpl andb; cbv iota; [reflexivity |].
    apply Nat.eqb_neq in E. rewrite loading_merge. apply Nat.ltb_ge.
    destruct Hj as [-> | ->]; lia.
Qed.

Lemma counted_onError (k : nat) (colName : Collection) (h : Hook) :
  counted k h → counted k (onError eager colName h).
Proof.
  intros [(e & He & Hm & Hsl & Hn) [Hlo Hhi]].
  assert (Hmo : is_mounted h = true) by (unfold is_mounted; rewrite He; exact Hm).
  split; [| split].
  - exists e. rewrite effect_onError. repeat split; assumption.
  - intros Hk m Hm4. rewrite (pending_onError eager m colName h Hmo). apply Hlo; assumption.
  - intros Hk m Hm6. rewrite (pending_onError eager m colName h Hmo). apply Hhi; assumption.
Qed.

Lemma counted_render (k : nat) (h : Hook) :
  counted k h → counted k (render h).
Proof.
  intros [(e & He & Hm & Hsl & Hn) [Hlo Hhi]].
  split; [| split].
  - exists e. repeat split; assumption.
  - intros Hk m _. rewrite pending_render, state_render, He. simpl. rewrite Hn.
    apply Hlo; assumption.
  - intros Hk m _. rewrite pending_render, state_render, He. simpl. rewrite Hn.
    apply Hhi; assumption.
Qed.

Lemma counted_run (evs : list Event) (k : nat) (h : Hook) :
  forallb is_live evs = true → counted k h →
  counted (k + length (delivered evs))%nat (run eager evs h).
Proof.
  revert k h. induction evs as [| ev evs IH]; intros k h Hlive Hc.
  - simpl. rewrite Nat.add_0_r. exact Hc.
  - simpl in Hlive. apply andb_true_iff in Hlive as [Hev Hevs].
    destruct ev as [colName docs | colName | | |]; try discriminate Hev.
    + replace (k + length (delivered (Snapshot colName docs :: evs)))%nat
        with (S k + length (delivered evs))%nat
        by (change (delivered (Snapshot colName docs :: evs))
              with (colName :: delivered evs); simpl; lia).
      apply (IH (S k)); [exact Hevs | apply counted_onNext, Hc].
    + apply (IH k); [exact Hevs | apply counted_onError, Hc].
    + apply (IH k); [exact Hevs | apply counted_render, Hc].
Qed.

(** From a start on a loading state, what the component renders
    after a trace of deliveries depends on how many snapshots were
    delivered, not on which collections they came from. *)
Lemma loading_by_count (userId : option string) (h : Hook) (evs : list Event) :
  falsy userId = false → queue h = [] → loading (state h) = true →
  forallb is_live evs = true →
  let h' := render (run eager evs (start userId h)) in
  ((length (delivered evs) < length collections - 1)%nat → loading (state h') = true) ∧
  ((length collections ≤ length (delivered evs))%nat → loading (state h') = false).
Proof.
  intros Hu Hq Hl Hlive h'.
  pose proof (counted_render _ _
                (counted_run evs 0 _ Hlive (counted_start userId h Hu Hq Hl)))
    as [_ [Hlo Hhi]].
  fold h' in Hlo, Hhi. simpl "+" in *.
  split; intros Hk.
  - apply (Hlo Hk 0). simpl. lia.
  - apply (Hhi Hk 6). simpl. lia.
Qed.

End Readiness.

(** ** The closure over [state.loading]

    The callbacks read [state.loading] of the render that ran the
    effect.  When the identity changes after a complete load, that
    value is false: no snapshot is counted any more, and every snapshot
    sets [loading] back to [0 < collections.length - 1]. *)

Section Stale.

Context (eager : Hook → bool).

Lemma stale_onNext (colName : Collection) (docs : list Doc) (h : Hook) :
  stale h → stale (onNext eager colName docs h).
Proof.
  intros (e & He & Hm & Hsl & Hn). eexists.
  split; [apply (effect_onNext eager _ _ _ _ He Hm) |].
  rewrite Hsl. repeat split. exact Hn.
Qed.

Lemma stale_run (evs : list Event) (h : Hook) :
  forallb is_live evs = true → stale h → stale (run eager evs h).
Proof.
  revert h. induction evs as [| ev evs IH]; intros h Hlive Hs; [exact Hs |].
  simpl in Hlive. apply andb_true_iff in Hlive as [Hev Hevs].
  apply IH; [exact Hevs |].
  destruct ev as [colName docs | colName | | |]; try discriminate Hev; simpl.
  - apply stale_onNext, Hs.
  - destruct Hs as (e & He & Hs). exists e. rewrite effect_onError. auto.
  - exact Hs.
Qed.

Lemma loading_after_stale_snapshot (colName : Collection) (docs : list Doc) (h : Hook) :
  stale h → loading (state (render (onNext eager colName docs h))) = true.
Proof.
  intros Hs. destruct (stale_onNext colName docs h Hs) as (e' & He' & _ & _ & Hn').
  destruct Hs as (e & He & Hm & Hsl & Hn).
  rewrite state_render, He'. simpl from_option. rewrite Hn'.
  destruct (pending_onNext eager 0 colName docs h e He Hm) as (k & Hk & ->).
  rewrite Hsl. simpl andb. cbv zeta iota. rewrite loading_merge.
  destruct Hk as [-> | ->]; [| rewrite Hn]; reflexivity.
Qed.

(** X4.  After a change of identity on a hook that has finished loading,
    the component renders with [loading] true after every snapshot,
    however many are delivered and from whichever collections. *)
Lemma loading_stuck_after_identity_change
      (userId : option string) (evs : list Event)
      (colName : Collection) (docs : list Doc) (h : Hook) :
  falsy userId = false →
  loading (state (render h)) = false →
  forallb is_live evs = true →
  loading (state (render (onNext eager colName docs
                            (run eager evs (step eager h (Identity userId))))))
  = true.
Proof.
  intros Hu Hl Hlive. apply loading_after_stale_snapshot, stale_run; [exact Hlive |].
  simpl step. rewrite (start_truthy _ _ Hu). eexists. split; [reflexivity |].
  repeat split. simpl state_loading.
  rewrite <- Hl. unfold stop. destruct (effect (render h)); reflexivity.
Qed.

End Stale.

(** ** Readiness: where the hook departs from set-based readiness *)

Lemma run_app (eager : Hook → bool) (evs1 evs2 : list Event) (h : Hook) :
  run eager (evs1 ++ evs2) h = run eager evs2 (run eager evs1 h).
Proof. unfold run. apply foldl_app. Qed.

(** C1.  Readiness in the code follows the number of snapshots
    delivered, not the set of collections seen: after six snapshots of
    [tickets] alone the rendered [loading] is false, although five of
    the six collections have delivered nothing.  This holds whether
    React runs the updaters at the call or at the render. *)
Theorem loading_cleared_by_one_collection (eager : Hook → bool) (docs : list Doc) :
  let evs := replicate 6 (Snapshot Tickets docs) in
  let h := render (run eager evs started) in
  loading (state started) = true
  ∧ loading (state h) = false
  ∧ delivered evs = replicate 6 Tickets
  ∧ all_delivered evs = false.
Proof.
  intros evs h. split; [reflexivity |]. split; [| split; reflexivity].
  apply (loading_by_count eager (Some "u1") useData_init evs);
    [reflexivity .. | simpl; lia].
Qed.

(** C2.  A collection that never delivers does not keep [loading]
    true: whatever the collections the snapshots come from, once six
    snapshots have been delivered the rendered [loading] is false. *)
Theorem loading_cleared_without_every_collection
        (eager : Hook → bool) (userId : option string) (evs : list Event) :
  falsy userId = false →
  forallb is_live evs = true →
  all_delivered evs = false →
  (length collections ≤ length (delivered evs))%nat →
  loading (state (render (run eager evs (start userId useData_init)))) = false.
Proof.
  intros Hu Hlive _ Hlen.
  apply (loading_by_count eager userId useData_init evs); try assumption; reflexivity.
Qed.

Lemma loading_cleared_without_every_collection_witness :
  all_delivered five_of_six = false
  ∧ loading (state (render (run at_call five_of_six started))) = false.
Proof.
  split; [reflexivity |].
  apply (loading_cleared_without_every_collection at_call (Some "u1") five_of_six).
  - reflexivity.
  - reflexivity.
  - reflexivity.
  - simpl. lia.
Defined.

(** C3.  A further snapshot of a collection that has already delivered
    changes [loading]: after one snapshot each of [tickets], [requests],
    [notes] and [projects] the component renders with [loading] true;
    two more snapshots of [tickets], and nothing else, and it renders
    with [loading] false.  When every updater runs at the call and the
    component renders after each delivery, it is the snapshot of
    [tickets] that follows the first five collections that clears
    [loading]; when every updater runs at the render, it is the one that
    follows the first four. *)
Theorem repeated_snapshot_changes_loading (eager : Hook → bool) (docs docs1 docs2 : list Doc) :
  let first_four := take 4 (one_each docs) in
  let h4 := render (run eager first_four started) in
  let h6 := render (run eager [Snapshot Tickets docs1; Snapshot Tickets docs2] h4) in
  (loading (state h4) = true ∧ loading (state h6) = false)
  ∧ (let h5 := run at_call (flat_map (λ ev, [ev; Render]) (take 5 (one_each docs))) started in
     loading (state h5) = true
     ∧ loading (state (render (onNext at_call Tickets docs1 h5))) = false)
  ∧ (let h4' := run at_render (flat_map (λ ev, [ev; Render]) first_four) started in
     loading (state h4') = true
     ∧ loading (state (render (onNext at_render Tickets docs1 h4'))) = false).
Proof.
  intros first_four h4 h6. split; [split |].
  - apply (loading_by_count eager (Some "u1") useData_init first_four);
      [reflexivity .. | simpl; lia].
  - change h6 with
      (render (run eager [Snapshot Tickets docs1; Snapshot Tickets docs2]
                 (run eager [Render] (run eager first_four started)))).
    rewrite <- !run_app.
    apply (loading_by_count eager (Some "u1") useData_init);
      [reflexivity .. | simpl; lia].
  - split; split; reflexivity.
Qed.

(** ** Snapshots and failures while the effect runs *)

Section Live.

Context (eager : Hook → bool).

Lemma is_mounted_effect (h : Hook) :
  is_mounted h = true → ∃ e, effect h = Some e ∧ mounted e = true.
Proof.
  unfold is_mounted. destruct (effect h) as [e |]; simpl; [| discriminate].
  intros Hm. exists e. split; [reflexivity | exact Hm].
Qed.

Lemma mounted_onNext (colName : Collection) (docs : list Doc) (h : Hook) :
  is_mounted (onNext eager colName docs h) = is_mounted h
  ∧ listeners (onNext eager colName docs h) = listeners h.
Proof.
  destruct (is_mounted h) eqn:Hm.
  - destruct (is_mounted_effect h Hm) as (e & He & Hme).
    unfold is_mounted, listeners in *.
    rewrite (effect_onNext eager colName docs h e He Hme), He. simpl. auto.
  - rewrite (onNext_unmounted eager colName docs h Hm). auto.
Qed.

Lemma mounted_onError (colName : Collection) (h : Hook) :
  is_mounted (onError eager colName h) = is_mounted h
  ∧ listeners (onError eager colName h) = listeners h.
Proof. unfold is_mounted, listeners. rewrite effect_onError. auto. Qed.

Lemma mounted_run (evs : list Event) (h : Hook) :
  forallb is_live evs = true →
  is_mounted (run eager evs h) = is_mounted h
  ∧ listeners (run eager evs h) = listeners h.
Proof.
  revert h. induction evs as [| ev evs IH]; intros h Hlive; [auto |].
  simpl in Hlive. apply andb_true_iff in Hlive as [Hev Hevs].
  change (run eager (ev :: evs) h) with (run eager evs (step eager h ev)).
  destruct (IH (step eager h ev) Hevs) as [-> ->].
  destruct ev as [colName docs | colName | | |]; try discriminate Hev; simpl.
  - apply mounted_onNext.
  - apply mounted_onError.
  - auto.
Qed.

(** A snapshot delivered to a running effect becomes the slice of
    its collection at the next render. *)
Lemma slice_after_snapshot (colName : Collection) (docs : list Doc) (h : Hook) :
  is_mounted h = true →
  slice colName (state (render (onNext eager colName docs h))) = decode_docs docs.
Proof.
  intros Hm. destruct (is_mounted_effect h Hm) as (e & He & Hme).
  rewrite state_render.
  destruct (pending_onNext eager
              (from_option loadedCollections 0 (effect (onNext eager colName docs h)))
              colName docs h e He Hme) as (k & _ & ->).
  cbv zeta.
  destruct (_ && _); [rewrite slice_set_loading |]; simpl;
    rewrite slice_set_loading, slice_set_slice;
    destruct (decide (colName = colName)); congruence.
Qed.

End Live.

(** C7.  A snapshot of collection [colName] changes at most the slice
    of [colName] and [loading]: at the next render the other five
    slices and [error] are what a render without the snapshot would
    have shown. *)
Theorem snapshot_frame (eager : Hook → bool)
        (colName : Collection) (docs : list Doc) (h : Hook) :
  let h' := render (onNext eager colName docs h) in
  (∀ other, other ≠ colName →
            slice other (state h') = slice other (state (render h)))
  ∧ error (state h') = error (state (render h)).
Proof.
  intros h'. subst h'. destruct (is_mounted h) eqn:Hm.
  2:{ rewrite (onNext_unmounted eager colName docs h Hm). auto. }
  destruct (is_mounted_effect h Hm) as (e & He & Hme).
  rewrite !state_render.
  set (n' := from_option loadedCollections 0 (effect (onNext eager colName docs h))).
  set (n := from_option loadedCollections 0 (effect h)).
  destruct (pending_onNext eager n' colName docs h e He Hme) as (k & _ & ->).
  destruct (same_data_pending n' n h) as [Hs Herr].
  cbv zeta. split.
  - intros other Hne.
    destruct (_ && _); [rewrite slice_set_loading |]; simpl;
      rewrite slice_set_loading, slice_set_slice;
      (destruct (decide (other = colName)); [contradiction | apply Hs]).
  - destruct (_ && _); simpl; rewrite error_set_slice; exact Herr.
Qed.

Lemma snapshot_frame_witness :
  Profiles ≠ Tickets
  ∧ slice Profiles (state (render (onNext at_call Tickets [doc_a; doc_b]
                                     (run at_call five_of_six started))))
    = slice Profiles (state (render (run at_call five_of_six started))).
Proof.
  split; [discriminate |].
  apply (snapshot_frame at_call Tickets [doc_a; doc_b] (run at_call five_of_six started)).
  discriminate.
Defined.

(** ** The error field *)

Section ErrorField.

Context (eager : Hook → bool).

Lemma error_run_updater (n : nat) (u : Updater) (s : State) :
  is_Some (error s) → is_Some (error (run_updater n u s)).
Proof.
  intros H. destruct u as [colName data | | colName]; simpl.
  - rewrite error_set_slice. exact H.
  - exact H.
  - eexists. reflexivity.
Qed.

Lemma error_foldl (n : nat) (q : list Update) (s : State) :
  is_Some (error s) →
  Forall (λ u, ∀ s', eagerState u = Some s' → is_Some (error s')) q →
  is_Some (error (foldl (run_update n) s q)).
Proof.
  revert s. induction q as [| u q IH]; intros s Hs Hq; simpl; [exact Hs |].
  apply Forall_cons in Hq as [Hu Hq]. apply IH; [| exact Hq].
  unfold run_update. destruct (eagerState u) as [s' |].
  - apply Hu. reflexivity.
  - apply error_run_updater, Hs.
Qed.

Lemma error_recorded_setState (n : nat) (u : Updater) (h : Hook) :
  error_recorded h → error_recorded (setState eager n u h).
Proof.
  intros [Hs Hq]. split; [rewrite state_setState; exact Hs |].
  unfold eager_states, setState in *. destruct (queue h) as [| u0 q].
  - destruct (eager h); simpl; apply Forall_singleton; intros s' Heq; simpl in Heq.
    + injection Heq as <-. apply error_run_updater, Hs.
    + discriminate Heq.
  - cbn [queue]. apply Forall_app_2; [exact Hq |].
    apply Forall_singleton. intros s' Heq. discriminate Heq.
Qed.

Lemma error_recorded_onNext (colName : Collection) (docs : list Doc) (h : Hook) :
  error_recorded h → error_recorded (onNext eager colName docs h).
Proof.
  intros H. unfold onNext. destruct (effect h) as [e |]; [| exact H].
  destruct (mounted e); simpl; [| exact H].
  pose proof (error_recorded_setState (loadedCollections e)
                (MergeSnapshot colName (decode_docs docs)) h H) as H1.
  set (h1 := setState eager (loadedCollections e)
               (MergeSnapshot colName (decode_docs docs)) h) in *.
  destruct (state_loading e); [| exact H1].
  destruct (_ =? _)%nat; [apply error_recorded_setState |]; exact H1.
Qed.

Lemma error_recorded_onError (colName : Collection) (h : Hook) :
  error_recorded h → error_recorded (onError eager colName h).
Proof.
  intros H. unfold onError. destruct (effect h) as [e |]; [| exact H].
  destruct (mounted e); [apply error_recorded_setState, H | exact H].
Qed.

Lemma error_recorded_render (h : Hook) :
  error_recorded h → error_recorded (render h).
Proof.
  intros [Hs Hq]. split; [| apply Forall_nil_2].
  apply error_foldl; assumption.
Qed.

Lemma error_recorded_stop (h : Hook) :
  error_recorded h → error_recorded (stop h).
Proof. intros H. unfold stop. destruct (effect h); exact H. Qed.

Lemma error_recorded_start (userId : option string) (h : Hook) :
  error_recorded h → error_recorded (start userId h).
Proof. intros H. unfold start. destruct (falsy userId); exact H. Qed.

Lemma error_recorded_run (evs : list Event) (h : Hook) :
  error_recorded h → error_recorded (run eager evs h).
Proof.
  revert h. induction evs as [| ev evs IH]; intros h H; [exact H |].
  apply IH. destruct ev as [colName docs | colName | | | userId]; simpl.
  - apply error_recorded_onNext, H.
  - apply error_recorded_onError, H.
  - apply error_recorded_render, H.
  - apply error_recorded_stop, H.
  - apply error_recorded_start, error_recorded_stop, error_recorded_render, H.
Qed.

Lemma error_message_inj (c1 c2 : Collection) :
  error_message c1 = error_message c2 → c1 = c2.
Proof. destruct c1, c2; (reflexivity || discriminate). Qed.

End ErrorField.

(** C4.  A failure reported for collection [colName] while the effect
    runs: the next render shows an [error] that names [colName],
    [loading] is what it would have been without the failure, no
    listener is closed and the effect keeps running, every later
    snapshot still becomes the slice of its collection, and no later
    event of any kind makes [error] null again. *)
Theorem failure_records_sticky_error (eager : Hook → bool)
        (colName : Collection) (h : Hook) :
  is_mounted h = true →
  let h' := render (onError eager colName h) in
  error (state h') = Some (error_message colName)
  ∧ (∀ other, error_message other = error_message colName → other = colName)
  ∧ loading (state h') = loading (state (render h))
  ∧ listeners h' = listeners h
  ∧ is_mounted h' = true
  ∧ (∀ evs other docs,
       forallb is_live evs = true →
       slice other (state (render (onNext eager other docs (run eager evs h'))))
       = decode_docs docs)
  ∧ (∀ evs, is_Some (error (state (run eager evs h')))).
Proof.
  intros Hm h'.
  assert (Hst : state h' = set_error (Some (error_message colName)) (state (render h))).
  { subst h'. rewrite !state_render, effect_onError. apply pending_onError, Hm. }
  assert (Hml : is_mounted h' = true ∧ listeners h' = listeners h).
  { destruct (mounted_onError eager colName h) as [H1 H2].
    subst h'. unfold is_mounted, listeners in *. simpl effect.
    rewrite H1, H2. auto. }
  destruct Hml as [Hm' Hl'].
  split; [rewrite Hst; reflexivity |].
  split; [intros other; apply error_message_inj |].
  split; [rewrite Hst; reflexivity |].
  split; [exact Hl' |]. split; [exact Hm' |]. split.
  - intros evs other docs Hlive. apply slice_after_snapshot.
    destruct (mounted_run eager evs h' Hlive) as [-> _]. exact Hm'.
  - intros evs. apply (error_recorded_run eager evs h').
    split; [rewrite Hst; eexists; reflexivity | apply Forall_nil_2].
Qed.

Lemma failure_records_sticky_error_witness :
  is_mounted (run at_call [Snapshot Profiles [doc_a]; Snapshot Quotas []] started) = true
  ∧ error (state (render (onError at_call Tickets
                            (run at_call [Snapshot Profiles [doc_a]; Snapshot Quotas []] started))))
    = Some "Erreur de lecture tickets".
Proof.
  split; [reflexivity |].
  apply (failure_records_sticky_error at_call Tickets
           (run at_call [Snapshot Profiles [doc_a]; Snapshot Quotas []] started)).
  reflexivity.
Defined.

(** ** Teardown *)

Lemma foldl_unsub (closed : list Collection) (e : Effect) :
  foldl unsub e closed
  = mkEffect (mounted e) (loadedCollections e) (state_loading e) (unsubscribers e)
             (close_all (listening e) closed).
Proof.
  revert e. induction closed as [| c closed IH]; intros e.
  - destruct e; reflexivity.
  - simpl. rewrite IH. reflexivity.
Qed.

Lemma stop_effect (h : Hook) (e : Effect) :
  effect h = Some e →
  stop h = mkHook (state h) (queue h)
             (Some (mkEffect false (loadedCollections e) (state_loading e)
                      (unsubscribers e)
                      (close_all (listening e) (unsubscribers e)))).
Proof. intros He. unfold stop. rewrite He, foldl_unsub. reflexivity. Qed.

Lemma close_all_nil (closed : list Collection) : close_all [] closed = [].
Proof. induction closed as [| c closed IH]; [reflexivity | exact IH]. Qed.

Lemma close_all_cons (x : Collection) (open closed : list Collection) :
  close_all (x :: open) closed
  = if decide (x ∈ closed) then close_all open closed else x :: close_all open closed.
Proof.
  revert x open. induction closed as [| c closed IH]; intros x open.
  - destruct (decide (x ∈ [])) as [Hin | _]; [| reflexivity].
    apply elem_of_nil in Hin. contradiction.
  - change (close_all (x :: open) (c :: closed))
      with (close_all (filter (λ y, y ≠ c) (x :: open)) closed).
    change (close_all open (c :: closed))
      with (close_all (filter (λ y, y ≠ c) open) closed).
    rewrite filter_cons. destruct (decide (x ≠ c)) as [Hne | Heq].
    + rewrite IH. destruct (decide (x ∈ closed)) as [Hin | Hnin].
      * rewrite decide_True by (right; exact Hin). reflexivity.
      * rewrite decide_False; [reflexivity |].
        intros Hin. apply elem_of_cons in Hin as [? | ?]; contradiction.
    + apply dec_stable in Heq. subst c.
      rewrite decide_True by left. reflexivity.
Qed.

Lemma close_all_idem (open closed : list Collection) :
  close_all (close_all open closed) closed = close_all open closed.
Proof.
  induction open as [| x open IH]; [rewrite !close_all_nil; reflexivity |].
  rewrite close_all_cons. destruct (decide (x ∈ closed)) as [Hin | Hnin]; [exact IH |].
  rewrite close_all_cons, decide_False by exact Hnin. rewrite IH. reflexivity.
Qed.

Lemma is_mounted_stop (h : Hook) : is_mounted (stop h) = false.
Proof.
  unfold is_mounted. destruct (effect h) as [e |] eqn:He.
  - rewrite (stop_effect h e He). reflexivity.
  - unfold stop. rewrite He. simpl. rewrite He. reflexivity.
Qed.

Section Stopped.

Context (eager : Hook → bool).

Lemma step_unmounted (ev : Event) (h : Hook) :
  is_mounted h = false → is_delivery ev = true → step eager h ev = h.
Proof.
  intros Hm Hev. destruct ev as [colName docs | colName | | |]; try discriminate Hev.
  - apply onNext_unmounted, Hm.
  - apply onError_unmounted, Hm.
Qed.

Lemma run_unmounted (evs : list Event) (h : Hook) :
  is_mounted h = false → forallb is_delivery evs = true → run eager evs h = h.
Proof.
  intros Hm. induction evs as [| ev evs IH]; intros Hevs; [reflexivity |].
  simpl in Hevs. apply andb_true_iff in Hevs as [Hev Hevs].
  change (run eager (ev :: evs) h) with (run eager evs (step eager h ev)).
  rewrite (step_unmounted ev h Hm Hev). apply IH, Hevs.
Qed.

Lemma run_unmounted_live (evs : list Event) (h : Hook) :
  is_mounted h = false → forallb is_live evs = true →
  run eager evs h = h ∨ run eager evs h = render h.
Proof.
  revert h. induction evs as [| ev evs IH]; intros h Hm Hevs; [left; reflexivity |].
  simpl in Hevs. apply andb_true_iff in Hevs as [Hev Hevs].
  change (run eager (ev :: evs) h) with (run eager evs (step eager h ev)).
  destruct ev as [colName docs | colName | | |]; try discriminate Hev; simpl step.
  - rewrite (onNext_unmounted eager colName docs h Hm). apply IH; assumption.
  - rewrite (onError_unmounted eager colName h Hm). apply IH; assumption.
  - right. destruct (IH (render h) Hm Hevs) as [-> | ->]; reflexivity.
Qed.

End Stopped.

(** C5.  After the cleanup of the effect, deliveries change nothing:
    any sequence of late snapshots and failures leaves the hook, and so
    the state it returns, exactly as the cleanup left it; with renders
    in between, the component still shows what it would have shown
    without the deliveries.  The cleanup itself does not touch the
    state. *)
Theorem no_mutation_after_stop (eager : Hook → bool) (h : Hook) :
  (∀ evs, forallb is_delivery evs = true → run eager evs (stop h) = stop h)
  ∧ (∀ evs, forallb is_live evs = true →
            state (render (run eager evs (stop h))) = state (render (stop h)))
  ∧ state (stop h) = state h.
Proof.
  split; [| split].
  - intros evs Hevs. apply run_unmounted; [apply is_mounted_stop | exact Hevs].
  - intros evs Hevs.
    destruct (run_unmounted_live eager evs (stop h) (is_mounted_stop h) Hevs) as [-> | ->];
      reflexivity.
  - unfold stop. destruct (effect h); reflexivity.
Qed.

Lemma no_mutation_after_stop_witness :
  forallb is_delivery [Snapshot Requests [doc_a; doc_b]; Failure Notes] = true
  ∧ run at_call [Snapshot Requests [doc_a; doc_b]; Failure Notes]
        (stop (run at_call (one_each [doc_a]) started))
    = stop (run at_call (one_each [doc_a]) started).
Proof.
  split; [reflexivity |].
  apply (no_mutation_after_stop at_call (run at_call (one_each [doc_a]) started)).
  reflexivity.
Defined.

(** C8.  The cleanup is idempotent: it is a total function, a second
    call returns the hook the first call returned, and neither call
    touches the state. *)
Theorem stop_idempotent (h : Hook) :
  stop (stop h) = stop h ∧ state (stop (stop h)) = state h.
Proof.
  destruct (effect h) as [e |] eqn:He.
  - rewrite (stop_effect h e He).
    split; [| reflexivity].
    erewrite stop_effect by reflexivity. simpl. rewrite close_all_idem. reflexivity.
  - unfold stop. rewrite He. simpl. rewrite He. split; reflexivity.
Qed.

(** C6.  With an empty or absent identity the effect returns at once:
    the hook is unchanged, so at the first mount the state is the
    initial one (six empty slices, [loading] true, [error] null), no
    listener is open, and nothing that can happen before the identity
    changes alters any of it. *)
Theorem start_without_identity (eager : Hook → bool) (userId : option string) :
  falsy userId = true →
  (∀ h, start userId h = h)
  ∧ state (start userId useData_init) = initialState
  ∧ (∀ colName, slice colName (state (start userId useData_init)) = [])
  ∧ loading (state (start userId useData_init)) = true
  ∧ error (state (start userId useData_init)) = None
  ∧ listeners (start userId useData_init) = []
  ∧ (∀ evs, forallb keeps_identity evs = true →
            run eager evs (start userId useData_init) = useData_init).
Proof.
  intros Hu.
  assert (Hs : ∀ h, start userId h = h) by (intros h; unfold start; rewrite Hu; reflexivity).
  split; [exact Hs |]. rewrite Hs.
  split; [reflexivity |]. split; [intros []; reflexivity |].
  split; [reflexivity |]. split; [reflexivity |]. split; [reflexivity |].
  intros evs. induction evs as [| ev evs IH]; intros Hevs; [reflexivity |].
  simpl in Hevs. apply andb_true_iff in Hevs as [Hev Hevs].
  change (run eager (ev :: evs) useData_init)
    with (run eager evs (step eager useData_init ev)).
  destruct ev as [colName docs | colName | | | uid]; try discriminate Hev;
    apply IH, Hevs.
Qed.

Lemma start_without_identity_witness :
  falsy (Some "") = true
  ∧ falsy None = true
  ∧ start (Some "") useData_init = useData_init
  ∧ run at_call [Snapshot Tickets [doc_a]; Failure Notes; Render; Stop]
        (start None useData_init)
    = useData_init.
Proof.
  split; [reflexivity |]. split; [reflexivity |]. split.
  - apply (start_without_identity at_call (Some "")). reflexivity.
  - apply (start_without_identity at_call None); reflexivity.
Defined.

(** ** Snapshot decoding *)

(** C9.  Snapshot decoding, [snapshot.docs.map(...)], builds one record
    per document, in order, and it is this list that the snapshot
    callback stores as the slice of its collection.  Each record is the
    document's own fields with the store-assigned id added under [id]
    only where the document has no such field: a stored [id] field
    takes precedence over the document id, and every other field is
    the document's. *)
Theorem decode_id_precedence (eager : Hook → bool) (colName : Collection)
        (docs : list Doc) (h : Hook) :
  length (decode_docs docs) = length docs
  ∧ (∀ i doc,
       docs !! i = Some doc →
       ∃ record,
         decode_docs docs !! i = Some record
         ∧ record !! "id" = Some (default (VStr (doc_id doc)) (doc_data doc !! "id"))
         ∧ (∀ v, doc_data doc !! "id" = Some v → record !! "id" = Some v)
         ∧ (doc_data doc !! "id" = None → record !! "id" = Some (VStr (doc_id doc)))
         ∧ (∀ k, k ≠ "id" → record !! k = doc_data doc !! k))
  ∧ (is_mounted h = true →
     slice colName (state (render (onNext eager colName docs h))) = decode_docs docs).
Proof.
  split; [apply length_map |]. split; [| apply slice_after_snapshot].
  intros i doc Hi. exists (decode doc). split.
  - unfold decode_docs. change (map decode docs) with (decode <$> docs).
    rewrite list_lookup_fmap, Hi. reflexivity.
  - unfold decode, spread. split; [| split; [| split]].
    + destruct (doc_data doc !! "id") as [v |] eqn:Hid; simpl.
      * apply lookup_union_Some_l, Hid.
      * rewrite lookup_union_r by exact Hid. apply lookup_singleton_eq.
    + intros v Hid. apply lookup_union_Some_l, Hid.
    + intros Hid. rewrite lookup_union_r by exact Hid. apply lookup_singleton_eq.
    + intros k Hk. destruct (doc_data doc !! k) as [v |] eqn:Hv.
      * apply lookup_union_Some_l, Hv.
      * rewrite lookup_union_r by exact Hv. apply lookup_singleton_ne. congruence.
Qed.

Lemma decode_id_precedence_witness :
  [doc_a; doc_b] !! 1%nat = Some doc_b
  ∧ doc_data doc_b !! "id" = Some (VStr "legacy-7")
  ∧ doc_data doc_a !! "id" = None
  ∧ is_mounted started = true
  ∧ (∃ record,
       decode_docs [doc_a; doc_b] !! 1%nat = Some record
       ∧ record !! "id" = Some (VStr "legacy-7"))
  ∧ (∃ record,
       decode_docs [doc_a; doc_b] !! 0%nat = Some record
       ∧ record !! "id" = Some (VStr "a1"))
  ∧ slice Tickets (state (render (onNext at_call Tickets [doc_a; doc_b] started)))
    = decode_docs [doc_a; doc_b].
Proof.
  pose proof (decode_id_precedence at_call Tickets [doc_a; doc_b] started)
    as (_ & Hrecords & Hslice).
  split; [reflexivity |]. split; [reflexivity |]. split; [reflexivity |].
  split; [reflexivity |]. split; [| split].
  - destruct (Hrecords 1%nat doc_b eq_refl) as (record & Hrec & _ & Hstored & _).
    exists record. split; [exact Hrec | apply Hstored; reflexivity].
  - destruct (Hrecords 0%nat doc_a eq_refl) as (record & Hrec & _ & _ & Hassigned & _).
    exists record. split; [exact Hrec | apply Hassigned; reflexivity].
  - apply Hslice. reflexivity.
Defined.

(** ** The helpers of [useActions] *)

Lemma created_fields (serverTimestamp : Value) (userId : string) (data : Fields) :
  created serverTimestamp userId data !! "createdBy" = Some (VStr userId)
  ∧ created serverTimestamp userId data !! "createdAt" = Some serverTimestamp
  ∧ (∀ k, k ≠ "createdBy" → k ≠ "createdAt" →
          created serverTimestamp userId data !! k = data !! k).
Proof.
  unfold created, spread. split; [| split].
  - apply lookup_insert_eq.
  - rewrite lookup_insert_ne by discriminate. apply lookup_insert_eq.
  - intros k H1 H2. rewrite !lookup_insert_ne by congruence.
    rewrite (right_id_L ∅ (∪)). reflexivity.
Qed.

(** C10.  [add], [update] and [remove] always resolve, never reject:
    with [true] when the calls on the store succeed, with [false]
    when [doc] throws or the write is rejected.  The record [add]
    hands to [addDoc] is [data] with [createdAt] and with [createdBy]
    set to the [userId] of the hook. *)
Theorem helpers_never_reject {Store : Type}
        (appId : string) (serverTimestamp : Value)
        (doc : string → string → Result DocRef)
        (addDoc : string → Fields → Async.M Store DocRef)
        (updateDoc : DocRef → Fields → Async.M Store ())
        (deleteDoc : DocRef → Async.M Store ())
        (collectionName userId : string)
        (data : Fields) (id : string) (st : Store) :
  let colRef := path appId collectionName in
  let record := created serverTimestamp userId data in
  let changes := updated serverTimestamp data in
  let add_ := add appId serverTimestamp addDoc collectionName userId in
  let update_ := update appId serverTimestamp doc updateDoc collectionName in
  let remove_ := remove appId doc deleteDoc collectionName in
  ((∃ b st', add_ data st = (Resolved b, st'))
   ∧ (∀ ref st', addDoc colRef record st = (Resolved ref, st') →
                 add_ data st = (Resolved true, st'))
   ∧ (∀ e st', addDoc colRef record st = (Rejected e, st') →
               add_ data st = (Resolved false, st'))
   ∧ record !! "createdBy" = Some (VStr userId)
   ∧ (∀ k, k ≠ "createdBy" → k ≠ "createdAt" → record !! k = data !! k))
  ∧ ((∃ b st', update_ id data st = (Resolved b, st'))
     ∧ (∀ ref st', doc colRef id = Resolved ref →
                   updateDoc ref changes st = (Resolved (), st') →
                   update_ id data st = (Resolved true, st'))
     ∧ (∀ e, doc colRef id = Rejected e → update_ id data st = (Resolved false, st))
     ∧ (∀ ref e st', doc colRef id = Resolved ref →
                     updateDoc ref changes st = (Rejected e, st') →
                     update_ id data st = (Resolved false, st')))
  ∧ ((∃ b st', remove_ id st = (Resolved b, st'))
     ∧ (∀ ref st', doc colRef id = Resolved ref →
                   deleteDoc ref st = (Resolved (), st') →
                   remove_ id st = (Resolved true, st'))
     ∧ (∀ e, doc colRef id = Rejected e → remove_ id st = (Resolved false, st))
     ∧ (∀ ref e st', doc colRef id = Resolved ref →
                     deleteDoc ref st = (Rejected e, st') →
                     remove_ id st = (Resolved false, st'))).
Proof.
  intros colRef record changes add_ update_ remove_.
  subst colRef record changes add_ update_ remove_.
  split; [| split].
  - unfold add, Async.try_catch, Async.bind, Async.ret.
    destruct (created_fields serverTimestamp userId data) as (Hby & _ & Hother).
    repeat split; try assumption.
    + destruct (addDoc _ _ st) as [[ref | e] st']; eauto.
    + intros ref st' ->. reflexivity.
    + intros e st' ->. reflexivity.
  - unfold update, Async.try_catch, Async.bind, Async.ret, Async.lift.
    repeat split.
    + destruct (doc _ id) as [ref | e]; [| eauto].
      destruct (updateDoc ref _ st) as [[[] | e] st']; eauto.
    + intros ref st' -> ->. reflexivity.
    + intros e ->. reflexivity.
    + intros ref e st' -> ->. reflexivity.
  - unfold remove, Async.try_catch, Async.bind, Async.ret, Async.lift.
    repeat split.
    + destruct (doc _ id) as [ref | e]; [| eauto].
      destruct (deleteDoc ref st) as [[[] | e] st']; eauto.
    + intros ref st' -> ->. reflexivity.
    + intros e ->. reflexivity.
    + intros ref e st' -> ->. reflexivity.
Qed.

Lemma helpers_never_reject_witness :
  let ts := VStr "serverTimestamp" in
  let data : Fields := {[ "title" := VStr "Logo" ]} in
  let ref := mkDocRef "artifacts/default-agency-app/tickets" "0" in
  let stored := <["createdBy" := VStr "u1"]> (<["createdAt" := ts]> data) in
  add "default-agency-app" ts mem_addDoc "tickets" "u1" data (mkMemStore true [])
  = (Resolved true, mkMemStore true [(ref, stored)])
  ∧ add "default-agency-app" ts mem_addDoc "tickets" "u1" data (mkMemStore false [])
    = (Resolved false, mkMemStore false [])
  ∧ update "default-agency-app" ts mem_doc mem_updateDoc "tickets" "" data
           (mkMemStore true [(ref, stored)])
    = (Resolved false, mkMemStore true [(ref, stored)])
  ∧ remove "default-agency-app" mem_doc mem_deleteDoc "tickets" "0"
           (mkMemStore true [(ref, stored)])
    = (Resolved true, mkMemStore true []).
Proof.
  intros ts data ref stored.
  pose proof (helpers_never_reject "default-agency-app" ts mem_doc mem_addDoc
                mem_updateDoc mem_deleteDoc "tickets" "u1" data) as H.
  split; [| split; [| split]].
  - destruct (H "0" (mkMemStore true [])) as [(_ & Hok & _) _].
    apply (Hok ref). vm_compute. reflexivity.
  - destruct (H "0" (mkMemStore false [])) as [(_ & _ & Hko & _) _].
    apply (Hko "unavailable"). reflexivity.
  - destruct (H "" (mkMemStore true [(ref, stored)])) as [_ [(_ & _ & Hthrow & _) _]].
    apply (Hthrow "invalid-argument"). reflexivity.
  - destruct (H "0" (mkMemStore true [(ref, stored)])) as [_ [_ (_ & Hok & _)]].
    apply (Hok ref); reflexivity.
Defined.

(** ** The rendered state as a function of the trace *)

Section Mirror.

Context (eager : Hook → bool).

Lemma state_render_onError (colName : Collection) (h : Hook) :
  is_mounted h = true →
  state (render (onError eager colName h))
  = set_error (Some (error_message colName)) (state (render h)).
Proof.
  intros Hm. rewrite !state_render, effect_onError. apply pending_onError, Hm.
Qed.

Lemma render_onNext_same_data (colName : Collection) (docs : list Doc) (h : Hook) :
  (∀ other, other ≠ colName →
            slice other (state (render (onNext eager colName docs h)))
            = slice other (state (render h)))
  ∧ error (state (render (onNext eager colName docs h))) = error (state (render h)).
Proof.
  destruct (is_mounted h) eqn:Hm.
  2:{ rewrite (onNext_unmounted eager colName docs h Hm). auto. }
  destruct (is_mounted_effect h Hm) as (e & He & Hme).
  rewrite !state_render.
  destruct (pending_onNext eager
              (from_option loadedCollections 0 (effect (onNext eager colName docs h)))
              colName docs h e He Hme) as (k & _ & ->).
  destruct (same_data_pending
              (from_option loadedCollections 0 (effect (onNext eager colName docs h)))
              (from_option loadedCollections 0 (effect h)) h) as [Hs Herr].
  cbv zeta. split.
  - intros other Hne.
    destruct (_ && _); [rewrite slice_set_loading |]; simpl;
      rewrite slice_set_loading, slice_set_slice;
      (destruct (decide (other = colName)); [contradiction | apply Hs]).
  - destruct (_ && _); simpl; rewrite error_set_slice; exact Herr.
Qed.

Lemma is_mounted_step (ev : Event) (h : Hook) :
  is_live ev = true → is_mounted (step eager h ev) = is_mounted h.
Proof.
  destruct ev as [colName docs | colName | | |]; try discriminate; intros _; simpl.
  - apply mounted_onNext.
  - apply mounted_onError.
  - reflexivity.
Qed.

(** X1.  While the effect runs, the slice of a collection at the next
    render is the decoded list of the last snapshot delivered for that
    collection, whatever was delivered for the others and in whatever
    order; with no snapshot of the collection in the trace the slice is
    what it was. *)
Theorem slices_follow_last_snapshot (colName : Collection) (evs : list Event) (h : Hook) :
  is_mounted h = true →
  forallb is_live evs = true →
  slice colName (state (render (run eager evs h)))
  = match last_snapshot colName evs with
    | Some docs => decode_docs docs
    | None => slice colName (state (render h))
    end.
Proof.
  revert h. induction evs as [| ev evs IH]; intros h Hm Hlive; [reflexivity |].
  simpl in Hlive. apply andb_true_iff in Hlive as [Hev Hevs].
  change (run eager (ev :: evs) h) with (run eager evs (step eager h ev)).
  rewrite IH by (rewrite ?is_mounted_step; assumption).
  simpl last_snapshot. destruct (last_snapshot colName evs) as [docs |]; [reflexivity |].
  destruct ev as [c docs | c | | |]; try discriminate Hev; simpl step.
  - destruct (decide (c = colName)) as [-> | Hne].
    + apply slice_after_snapshot, Hm.
    + apply render_onNext_same_data. congruence.
  - rewrite (state_render_onError c h Hm). apply slice_set_error.
  - reflexivity.
Qed.

(** X2.  While the effect runs, the [error] at the next render is the
    message of the last failure of the trace, whichever snapshots came
    after it; with no failure in the trace it is what it was. *)
Theorem error_follows_last_failure (evs : list Event) (h : Hook) :
  is_mounted h = true →
  forallb is_live evs = true →
  error (state (render (run eager evs h)))
  = match last_failure evs with
    | Some colName => Some (error_message colName)
    | None => error (state (render h))
    end.
Proof.
  revert h. induction evs as [| ev evs IH]; intros h Hm Hlive; [reflexivity |].
  simpl in Hlive. apply andb_true_iff in Hlive as [Hev Hevs].
  change (run eager (ev :: evs) h) with (run eager evs (step eager h ev)).
  rewrite IH by (rewrite ?is_mounted_step; assumption).
  simpl last_failure. destruct (last_failure evs) as [c' |]; [reflexivity |].
  destruct ev as [c docs | c | | |]; try discriminate Hev; simpl step.
  - apply render_onNext_same_data.
  - rewrite (state_render_onError c h Hm). reflexivity.
  - reflexivity.
Qed.

End Mirror.

Lemma slices_follow_last_snapshot_witness :
  is_mounted started = true
  ∧ slice Tickets (state (render (run at_render five_of_six started)))
    = decode_docs [doc_a; doc_b].
Proof.
  split; [reflexivity |].
  apply (slices_follow_last_snapshot at_render Tickets five_of_six started); reflexivity.
Defined.

Lemma error_follows_last_failure_witness :
  error (state (render (run at_call
                          [Failure Notes; Snapshot Notes [doc_a]; Failure Quotas;
                           Snapshot Tickets []] started)))
  = Some "Erreur de lecture quotas".
Proof.
  apply (error_follows_last_failure at_call
           [Failure Notes; Snapshot Notes [doc_a]; Failure Quotas; Snapshot Tickets []]
           started); reflexivity.
Defined.

(** ** [loading] within one run of the effect *)

Section Settled.

Context (eager : Hook → bool).

Lemma settled_start (userId : option string) (h : Hook) :
  falsy userId = false → queue h = [] → loading (state h) = true →
  settled 0 (start userId h).
Proof.
  intros Hu Hq Hl. split; [apply counted_start; assumption |].
  rewrite (start_truthy _ _ Hu). cbn [state]. rewrite Hl.
  split; [reflexivity | discriminate].
Qed.

Lemma settled_onNext (k : nat) (colName : Collection) (docs : list Doc) (h : Hook) :
  settled k h → settled (S k) (onNext eager colName docs h).
Proof.
  intros (Hc & Htrue & Hfalse).
  split; [apply counted_onNext, Hc |]. rewrite state_onNext.
  change (length collections) with 6 in *.
  split; [intros Hk; apply Htrue; lia |].
  intros Hl m Hm.
  assert (Hk : (5 ≤ k)%nat).
  { destruct (decide (k < 5)%nat) as [Hlt | ?]; [| lia].
    rewrite Htrue in Hl by lia. discriminate Hl. }
  destruct Hc as [(e & He & Hme & Hsl & Hn) _].
  destruct (pending_onNext eager m colName docs h e He Hme) as (j & Hj & ->).
  cbv zeta. destruct (_ && _); [reflexivity |].
  rewrite loading_merge. apply Nat.ltb_ge. destruct Hj as [-> | ->]; lia.
Qed.

Lemma settled_onError (k : nat) (colName : Collection) (h : Hook) :
  settled k h → settled k (onError eager colName h).
Proof.
  intros (Hc & Htrue & Hfalse).
  split; [apply counted_onError, Hc |]. rewrite state_onError.
  split; [exact Htrue |]. intros Hl m Hm.
  destruct Hc as [(e & He & Hme & _) _].
  rewrite pending_onError by (unfold is_mounted; rewrite He; exact Hme).
  apply Hfalse; assumption.
Qed.

Lemma settled_render (k : nat) (h : Hook) :
  settled k h → settled k (render h).
Proof.
  intros (Hc & Htrue & Hfalse).
  split; [apply counted_render, Hc |].
  destruct Hc as [(e & He & _ & _ & Hn) [Hlo _]].
  split.
  - intros Hk. rewrite state_render, He. simpl. rewrite Hn. apply Hlo; assumption.
  - intros Hl m _. rewrite pending_render. exact Hl.
Qed.

Lemma settled_run (evs : list Event) (k : nat) (h : Hook) :
  forallb is_live evs = true → settled k h →
  loading (state h) = false →
  loading (state (run eager evs h)) = false.
Proof.
  revert k h. induction evs as [| ev evs IH]; intros k h Hlive Hs Hl; [exact Hl |].
  simpl in Hlive. apply andb_true_iff in Hlive as [Hev Hevs].
  change (run eager (ev :: evs) h) with (run eager evs (step eager h ev)).
  destruct ev as [colName docs | colName | | |]; try discriminate Hev; simpl step.
  - apply (IH (S k)); [exact Hevs | apply settled_onNext, Hs |].
    rewrite state_onNext. exact Hl.
  - apply (IH k); [exact Hevs | apply settled_onError, Hs |].
    rewrite state_onError. exact Hl.
  - apply (IH k); [exact Hevs | apply settled_render, Hs |].
    destruct Hs as ([(e & He & _ & _ & Hn) _] & _ & Hfalse).
    rewrite state_render, He. simpl. rewrite Hn. apply Hfalse; [exact Hl | lia].
Qed.

Lemma settled_after (evs : list Event) (k : nat) (h : Hook) :
  forallb is_live evs = true → settled k h →
  settled (k + length (delivered evs))%nat (run eager evs h).
Proof.
  revert k h. induction evs as [| ev evs IH]; intros k h Hlive Hs.
  - simpl. rewrite Nat.add_0_r. exact Hs.
  - simpl in Hlive. apply andb_true_iff in Hlive as [Hev Hevs].
    destruct ev as [colName docs | colName | | |]; try discriminate Hev.
    + replace (k + length (delivered (Snapshot colName docs :: evs)))%nat
        with (S k + length (delivered evs))%nat
        by (change (delivered (Snapshot colName docs :: evs))
              with (colName :: delivered evs); simpl; lia).
      apply (IH (S k)); [exact Hevs | apply settled_onNext, Hs].
    + apply (IH k); [exact Hevs | apply settled_onError, Hs].
    + apply (IH k); [exact Hevs | apply settled_render, Hs].
Qed.

(** X3.  Within one run of the effect, started while the state was
    loading, [loading] does not come back: once the component has
    rendered with [loading] false, it renders with [loading] false
    after every further snapshot, failure and render. *)
Theorem loading_does_not_come_back
        (userId : option string) (h : Hook) (evs1 evs2 : list Event) :
  falsy userId = false → queue h = [] → loading (state h) = true →
  forallb is_live evs1 = true → forallb is_live evs2 = true →
  loading (state (run eager evs1 (start userId h))) = false →
  loading (state (run eager (evs1 ++ evs2) (start userId h))) = false.
Proof.
  intros Hu Hq Hl Hlive1 Hlive2 Hfalse. rewrite run_app.
  apply (settled_run evs2 (0 + length (delivered evs1))); [exact Hlive2 | | exact Hfalse].
  apply settled_after; [exact Hlive1 |]. apply settled_start; assumption.
Qed.

End Settled.

Lemma loading_does_not_come_back_witness :
  loading (state (run at_render (one_by_one [(Tickets, [doc_a]); (Tickets, []);
                                               (Notes, []); (Quotas, []); (Tickets, [])])
                      started)) = false
  ∧ loading (state (run at_render
                      (one_by_one [(Tickets, [doc_a]); (Tickets, []); (Notes, []);
                                   (Quotas, []); (Tickets, [])]
                       ++ [Failure Notes; Snapshot Requests [doc_b]; Render])
                      started)) = false.
Proof.
  split; [reflexivity |].
  apply (loading_does_not_come_back at_render (Some "u1") useData_init); reflexivity.
Defined.

Lemma loading_stuck_after_identity_change_witness :
  loading (state (render (run at_call (one_each [doc_a]) started))) = false
  ∧ loading (state (render (onNext at_call Quotas [doc_b]
                              (run at_call (one_by_one (map (λ c, (c, [doc_a])) collections))
                                   (step at_call (run at_call (one_each [doc_a]) started)
                                         (Identity (Some "u2")))))))
    = true.
Proof.
  split; [reflexivity |].
  apply (loading_stuck_after_identity_change at_call (Some "u2")); reflexivity.
Defined.

(** ** Listeners *)

Section Listeners.

Context (eager : Hook → bool).

Lemma tidy_step (ev : Event) (h : Hook) : tidy h → tidy (step eager h ev).
Proof.
  assert (Hstop : ∀ h', tidy h' → tidy (stop h')).
  { intros h' Ht. unfold tidy in *. destruct (effect h') as [e |] eqn:He.
    - rewrite (stop_effect h' e He). cbn [effect unsubscribers listening mounted].
      destruct Ht as [Hu Hl]. rewrite Hu, Hl. split; [reflexivity |].
      destruct (mounted e); reflexivity.
    - unfold stop. rewrite He, He. exact I. }
  assert (Hstart : ∀ userId h', tidy h' → tidy (start userId h')).
  { intros userId h' Ht. destruct (falsy userId) eqn:Hu.
    - unfold start. rewrite Hu. exact Ht.
    - rewrite (start_truthy _ _ Hu). split; reflexivity. }
  intros Ht. destruct ev as [colName docs | colName | | | userId]; simpl step.
  - destruct (is_mounted h) eqn:Hm.
    + destruct (is_mounted_effect h Hm) as (e & He & Hme).
      unfold tidy in *. rewrite (effect_onNext eager colName docs h e He Hme).
      rewrite He, Hme in Ht. exact Ht.
    + rewrite (onNext_unmounted eager colName docs h Hm). exact Ht.
  - unfold tidy in *. rewrite effect_onError. exact Ht.
  - exact Ht.
  - apply Hstop, Ht.
  - apply Hstart, Hstop, Ht.
Qed.

Lemma tidy_run (evs : list Event) (h : Hook) :
  tidy h → tidy (run eager evs h).
Proof.
  revert h. induction evs as [| ev evs IH]; intros h Ht; [exact Ht |].
  apply (IH (step eager h ev)), tidy_step, Ht.
Qed.

Lemma tidy_listeners (h : Hook) :
  tidy h → listeners h = (if is_mounted h then collections else []).
Proof.
  unfold tidy, listeners, is_mounted. destruct (effect h) as [e |]; simpl.
  - intros [_ Hl]. exact Hl.
  - reflexivity.
Qed.

Lemma tidy_stop (h : Hook) : tidy h → listeners (stop h) = [].
Proof.
  unfold tidy, listeners. destruct (effect h) as [e |] eqn:He.
  - intros [Hu Hl]. rewrite (stop_effect h e He). cbn [effect from_option listening].
    rewrite Hu, Hl. destruct (mounted e); reflexivity.
  - intros _. unfold stop. rewrite He, He. reflexivity.
Qed.

(** X5.  The cleanup closes every listener the effect opened.  At any
    point of any sequence of snapshots, failures, renders, cleanups and
    identity changes from the first mount, running the cleanup leaves
    no listener open and the effect unmounted; so at a change of
    identity the listeners of the previous effect are all closed
    before the effect runs again, six listeners are open afterwards
    for a non-empty identity and none for an empty one.  While the
    effect runs, its open listeners are the six collections, each
    once. *)
Theorem cleanup_closes_every_listener (evs : list Event) (userId : option string) :
  let h := run eager evs useData_init in
  listeners (stop h) = []
  ∧ is_mounted (stop h) = false
  ∧ listeners (stop (render h)) = []
  ∧ listeners (step eager h (Identity userId))
    = (if falsy userId then [] else collections)
  ∧ listeners h = (if is_mounted h then collections else [])
  ∧ NoDup (listeners h).
Proof.
  intros h.
  assert (Ht : tidy h) by (apply tidy_run; exact I).
  assert (Hl : listeners h = (if is_mounted h then collections else []))
    by (apply tidy_listeners, Ht).
  split; [apply tidy_stop, Ht |]. split; [apply is_mounted_stop |].
  split; [apply tidy_stop; exact Ht |]. split; [| split; [exact Hl |]].
  - simpl step. destruct (falsy userId) eqn:Hu.
    + unfold start. rewrite Hu. apply tidy_stop. exact Ht.
    + rewrite (start_truthy _ _ Hu). reflexivity.
  - rewrite Hl. destruct (is_mounted h); [| apply NoDup_nil_2].
    apply (bool_decide_unpack _). reflexivity.
Qed.

End Listeners.


(** ** When [loading] clears *)

Lemma one_by_one_at_call (deliveries : list (Collection * list Doc))
      (s : State) (k : nat) (us li : list Collection) :
  loading s = (k <? 6)%nat →
  loading (state (run at_call (one_by_one deliveries)
                      (mkHook s [] (Some (mkEffect true k true us li)))))
  = (k + length deliveries <? 6)%nat.
Proof.
  revert s k. induction deliveries as [| [c docs] ds IH]; intros s k Hl.
  - simpl. rewrite Nat.add_0_r. exact Hl.
  - change (one_by_one ((c, docs) :: ds))
      with ([Snapshot c docs; Render] ++ one_by_one ds)%list.
    rewrite run_app. cbn [length]. rewrite Nat.add_succ_r, <- Nat.add_succ_l.
    destruct (S k =? 6)%nat eqn:E.
    + apply Nat.eqb_eq in E. injection E as ->.
      apply (IH _ 6%nat). reflexivity.
    + assert (Hrun : run at_call [Snapshot c docs; Render]
                         (mkHook s [] (Some (mkEffect true k true us li)))
                     = mkHook (run_updater k (MergeSnapshot c (decode_docs docs)) s) []
                              (Some (mkEffect true (S k) true us li))).
      { unfold run. simpl foldl. unfold onNext, setState, at_call. cbn.
        cbn in E. rewrite E. reflexivity. }
      rewrite Hrun. apply (IH _ (S k)). rewrite loading_merge.
      apply Nat.eqb_neq in E.
      destruct (k <? 5)%nat eqn:E1, (S k <? 6)%nat eqn:E2; try reflexivity;
        [apply Nat.ltb_lt in E1; apply Nat.ltb_ge in E2
        | apply Nat.ltb_ge in E1; apply Nat.ltb_lt in E2]; lia.
Qed.

Lemma one_by_one_at_render (deliveries : list (Collection * list Doc))
      (s : State) (k : nat) (us li : list Collection) :
  loading s = (k <? 5)%nat →
  loading (state (run at_render (one_by_one deliveries)
                      (mkHook s [] (Some (mkEffect true k true us li)))))
  = (k + length deliveries <? 5)%nat.
Proof.
  revert s k. induction deliveries as [| [c docs] ds IH]; intros s k Hl.
  - simpl. rewrite Nat.add_0_r. exact Hl.
  - change (one_by_one ((c, docs) :: ds))
      with ([Snapshot c docs; Render] ++ one_by_one ds)%list.
    rewrite run_app. cbn [length]. rewrite Nat.add_succ_r, <- Nat.add_succ_l.
    destruct (S k =? 6)%nat eqn:E.
    + apply Nat.eqb_eq in E. injection E as ->.
      apply (IH _ 6%nat). reflexivity.
    + assert (Hrun : run at_render [Snapshot c docs; Render]
                         (mkHook s [] (Some (mkEffect true k true us li)))
                     = mkHook (run_updater (S k) (MergeSnapshot c (decode_docs docs)) s) []
                              (Some (mkEffect true (S k) true us li))).
      { unfold run. simpl foldl. unfold onNext, setState, at_render. cbn.
        cbn in E. rewrite E. reflexivity. }
      rewrite Hrun. apply (IH _ (S k)). apply loading_merge.
Qed.

(** X6.  With a render after every snapshot, [loading] after [n]
    snapshots depends on [n] alone.  When React runs each updater at
    the [setState] call, [loading] is true through the fifth snapshot
    and false from the sixth on; when it runs them at the render,
    [loading] is already false at the fifth. *)
Theorem loading_thresholds (userId : option string)
        (deliveries : list (Collection * list Doc)) :
  falsy userId = false →
  loading (state (run at_call (one_by_one deliveries) (start userId useData_init)))
  = (length deliveries <? 6)%nat
  ∧ loading (state (run at_render (one_by_one deliveries) (start userId useData_init)))
    = (length deliveries <? 5)%nat.
Proof.
  intros Hu. rewrite (start_truthy _ _ Hu). split.
  - apply (one_by_one_at_call deliveries _ 0%nat). reflexivity.
  - apply (one_by_one_at_render deliveries _ 0%nat). reflexivity.
Qed.

Lemma loading_thresholds_witness :
  let five := map (λ c, (c, [doc_a])) (take 5 collections) in
  loading (state (run at_call (one_by_one five) started)) = true
  ∧ loading (state (run at_render (one_by_one five) started)) = false.
Proof.
  intros five. apply (loading_thresholds (Some "u1") five). reflexivity.
Defined.

(** X7.  When each of the six collections delivers exactly one
    snapshot, in any order and with failures and renders anywhere in
    between, the component ends up rendering with [loading] false; at
    any earlier point of the trace at which fewer than five snapshots
    had been delivered it would render with [loading] true. *)
Theorem loading_clears_when_each_delivers_once
        (eager : Hook → bool) (userId : option string) (evs : list Event) :
  falsy userId = false →
  forallb is_live evs = true →
  delivered evs ≡ₚ collections →
  loading (state (render (run eager evs (start userId useData_init)))) = false
  ∧ (∀ evs1 evs2,
       evs = (evs1 ++ evs2)%list → (length (delivered evs1) < 5)%nat →
       loading (state (render (run eager evs1 (start userId useData_init)))) = true).
Proof.
  intros Hu Hlive Hperm. split.
  - apply (loading_by_count eager userId useData_init evs); try assumption; try reflexivity.
    rewrite Hperm. reflexivity.
  - intros evs1 evs2 -> Hlen. rewrite forallb_app in Hlive.
    apply andb_true_iff in Hlive as [Hlive1 _].
    apply (loading_by_count eager userId useData_init evs1); try assumption; reflexivity.
Qed.

Lemma loading_clears_when_each_delivers_once_witness :
  loading (state (render (run at_call
                            [Snapshot Notes []; Snapshot Quotas [doc_a]; Render;
                             Snapshot Tickets [doc_b]; Failure Notes;
                             Snapshot Requests []; Snapshot Projects [];
                             Snapshot Profiles []]
                            started))) = false.
Proof.
  apply (loading_clears_when_each_delivers_once at_call (Some "u1")
           [Snapshot Notes []; Snapshot Quotas [doc_a]; Render;
            Snapshot Tickets [doc_b]; Failure Notes;
            Snapshot Requests []; Snapshot Projects []; Snapshot Profiles []]).
  - reflexivity.
  - reflexivity.
  - apply (bool_decide_unpack _). reflexivity.
Defined.

(** ** Decoded records in [DataList] *)

Lemma decode_lookup (doc : Doc) (k : string) :
  decode doc !! k
  = if decide (k = "id")
    then Some (default (VStr (doc_id doc)) (doc_data doc !! "id"))
    else doc_data doc !! k.
Proof.
  unfold decode, spread. destruct (decide (k = "id")) as [-> | Hk].
  - destruct (doc_data doc !! "id") as [v |] eqn:Hid; simpl.
    + apply lookup_union_Some_l, Hid.
    + rewrite lookup_union_r by exact Hid. apply lookup_singleton_eq.
  - destruct (doc_data doc !! k) as [v |] eqn:Hv.
    + apply lookup_union_Some_l, Hv.
    + rewrite lookup_union_r by exact Hv. apply lookup_singleton_ne. congruence.
Qed.

(** X9.  [DataList] shows the first five items of its list, in order,
    and no more; it shows the notice for an empty list exactly when it
    shows no row. *)
Theorem DataList_first_five (data : list Fields) :
  length (rows (DataList data)) = min 5 (length data)
  ∧ (∀ i, rows (DataList data) !! i
          = if decide (i < 5)%nat
            then (λ item, mkRow (item !! "id") (item_label item)) <$> data !! i
            else None)
  ∧ (empty_notice (DataList data) = true ↔ rows (DataList data) = []).
Proof.
  unfold DataList. cbn [rows empty_notice]. split; [| split].
  - rewrite length_map. apply length_take.
  - intros i. rewrite list_lookup_fmap, lookup_take. destruct (decide (i < 5)%nat); reflexivity.
  - rewrite bool_decide_eq_true. destruct data; simpl; split; (discriminate || reflexivity).
Qed.

(** X10.  Every row [DataList] shows for the records of a snapshot has
    a key and a text that are not [undefined]: the text is the name if
    it is truthy, else the title if it is truthy, else the id, which a
    decoded record always has. *)
Theorem decoded_rows_have_key_and_text (docs : list Doc) :
  Forall (λ r, is_Some (row_key r) ∧ is_Some (row_text r))
         (rows (DataList (decode_docs docs)))
  ∧ (∀ doc,
       item_label (decode doc)
       = if truthy (doc_data doc !! "name") then doc_data doc !! "name"
         else if truthy (doc_data doc !! "title") then doc_data doc !! "title"
         else Some (default (VStr (doc_id doc)) (doc_data doc !! "id"))).
Proof.
  assert (Hlabel : ∀ doc,
             item_label (decode doc)
             = if truthy (doc_data doc !! "name") then doc_data doc !! "name"
               else if truthy (doc_data doc !! "title") then doc_data doc !! "title"
               else Some (default (VStr (doc_id doc)) (doc_data doc !! "id"))).
  { intros doc. unfold item_label, js_or. rewrite !decode_lookup.
    repeat (rewrite decide_False by discriminate). rewrite decide_True by reflexivity.
    destruct (truthy (doc_data doc !! "name")) eqn:Hn; simpl; rewrite ?Hn; [reflexivity |].
    destruct (truthy (doc_data doc !! "title")) eqn:Ht; simpl; rewrite ?Ht; reflexivity. }
  split; [| exact Hlabel].
  unfold DataList, decode_docs. cbn [rows]. apply Forall_fmap, Forall_forall.
  intros item Hitem. apply subseteq_take, list_elem_of_fmap in Hitem as (doc & -> & _).
  simpl. split.
  - rewrite decode_lookup, decide_True by reflexivity. eexists. reflexivity.
  - rewrite Hlabel.
    destruct (truthy (doc_data doc !! "name")) eqn:Hn;
      [destruct (doc_data doc !! "name"); [eexists; reflexivity | discriminate Hn] |].
    destruct (truthy (doc_data doc !! "title")) eqn:Ht;
      [destruct (doc_data doc !! "title"); [eexists; reflexivity | discriminate Ht] |].
    eexists. reflexivity.
Qed.

Lemma decoded_ids (docs : list Doc) :
  Forall (λ d, doc_data d !! "id" = None) docs →
  (λ r : Fields, r !! "id") <$> decode_docs docs
  = (λ d, Some (VStr (doc_id d))) <$> docs.
Proof.
  induction 1 as [| d docs Hd _ IH]; [reflexivity |].
  change (decode_docs (d :: docs)) with (decode d :: decode_docs docs).
  rewrite !fmap_cons, IH, decode_lookup, decide_True by reflexivity.
  rewrite Hd. reflexivity.
Qed.

(** X11.  When the documents of a snapshot have pairwise distinct ids
    and none stores an [id] field of its own, the decoded records have
    pairwise distinct ids, and so have the keys of the rows [DataList]
    shows for them.  A stored [id] field breaks this: two documents
    with distinct ids can decode to records with the same id. *)
Theorem decoded_ids_distinct (docs : list Doc) :
  NoDup (doc_id <$> docs) →
  Forall (λ d, doc_data d !! "id" = None) docs →
  NoDup ((λ r : Fields, r !! "id") <$> decode_docs docs)
  ∧ NoDup (row_key <$> rows (DataList (decode_docs docs)))
  ∧ (let clash := [mkDoc "a1" {[ "id" := VStr "b2" ]}; mkDoc "b2" ∅] in
     NoDup (doc_id <$> clash)
     ∧ ¬ NoDup ((λ r : Fields, r !! "id") <$> decode_docs clash)).
Proof.
  intros Hnd Hid.
  assert (Hinj : Inj (=) (=) (λ s : string, Some (VStr s))) by (intros s1 s2 [= ->]; reflexivity).
  assert (Hall : NoDup ((λ r : Fields, r !! "id") <$> decode_docs docs)).
  { rewrite (decoded_ids docs Hid).
    change (NoDup ((λ s : string, Some (VStr s)) ∘ doc_id <$> docs)).
    rewrite list_fmap_compose. apply (NoDup_fmap_2 _), Hnd. }
  split; [exact Hall |]. split.
  - unfold DataList. cbn [rows]. rewrite <- list_fmap_compose.
    change (row_key ∘ (λ item : Fields, mkRow (item !! "id") (item_label item)))
      with (λ item : Fields, item !! "id").
    apply (sublist_NoDup _ ((λ r : Fields, r !! "id") <$> decode_docs docs));
      [exact Hall | apply fmap_sublist, sublist_take].
  - split; [apply (bool_decide_unpack _); reflexivity |].
    intros Hclash. apply (bool_decide_pack _) in Hclash. vm_compute in Hclash.
    exact Hclash.
Qed.

Lemma decoded_ids_distinct_witness :
  NoDup ((λ r : Fields, r !! "id") <$> decode_docs [doc_a; mkDoc "c3" ∅]).
Proof.
  apply (decoded_ids_distinct [doc_a; mkDoc "c3" ∅]).
  - apply (bool_decide_unpack _). reflexivity.
  - repeat constructor.
Defined.

(** ** The records written by [useActions] *)

(** X12.  The stamps cannot be forged: a [createdAt] or [createdBy]
    the caller puts in the data of [add] has no effect on the record
    written, nor has an [updatedAt] in the data of [update]; stamping
    adds those keys and changes no other, and every key but
    [updatedAt], [createdBy] included, reaches [updateDoc] as the
    caller gave it. *)
Theorem stamps_cannot_be_forged (serverTimestamp v w : Value) (userId : string)
        (data : Fields) :
  created serverTimestamp userId (<["createdBy" := v]> (<["createdAt" := w]> data))
  = created serverTimestamp userId data
  ∧ updated serverTimestamp (<["updatedAt" := v]> data) = updated serverTimestamp data
  ∧ created serverTimestamp userId data !! "createdAt" = Some serverTimestamp
  ∧ dom (created serverTimestamp userId data) = {["createdBy"; "createdAt"]} ∪ dom data
  ∧ updated serverTimestamp data !! "updatedAt" = Some serverTimestamp
  ∧ dom (updated serverTimestamp data) = {["updatedAt"]} ∪ dom data
  ∧ (∀ k, k ≠ "updatedAt" → updated serverTimestamp data !! k = data !! k).
Proof.
  unfold created, updated, spread. rewrite !(right_id_L ∅ (∪)).
  split; [| split; [| split; [| split; [| split; [| split]]]]].
  - apply map_eq. intros k.
    destruct (decide (k = "createdBy")) as [-> | H1]; [rewrite !lookup_insert_eq; reflexivity |].
    rewrite !(lookup_insert_ne _ "createdBy") by congruence.
    destruct (decide (k = "createdAt")) as [-> | H2]; [rewrite !lookup_insert_eq; reflexivity |].
    rewrite !(lookup_insert_ne _ "createdAt") by congruence.
    rewrite !lookup_insert_ne by congruence. reflexivity.
  - apply insert_insert_eq.
  - rewrite lookup_insert_ne by discriminate. apply lookup_insert_eq.
  - rewrite !dom_insert_L. apply (assoc_L (∪)).
  - apply lookup_insert_eq.
  - apply dom_insert_L.
  - intros k Hk. apply lookup_insert_ne. congruence.
Qed.

Lemma stamps_cannot_be_forged_witness :
  updated (VStr "serverTimestamp") {[ "createdBy" := VStr "u1"; "hours" := VNum 4 ]}
    !! "createdBy"
  = Some (VStr "u1").
Proof.
  rewrite (proj2 (proj2 (proj2 (proj2 (proj2 (proj2
            (stamps_cannot_be_forged (VStr "serverTimestamp") VNull VNull "u1"
               {[ "createdBy" := VStr "u1"; "hours" := VNum 4 ]})))))) "createdBy")
    by discriminate.
  reflexivity.
Defined.

(** ** Store paths *)

Lemma colName_string_inj (c1 c2 : Collection) :
  colName_string c1 = colName_string c2 → c1 = c2.
Proof. destruct c1, c2; (reflexivity || discriminate). Qed.

(** X13.  [useData] listens to the path [useActions] writes to for the
    same collection name, distinct collections have distinct paths, and
    the application segment of a path is never empty: a missing or
    empty [VITE_APP_ID] gives [default-agency-app]. *)
Theorem paths_agree_and_differ (VITE_APP_ID : option string) :
  let appId := appId_of VITE_APP_ID in
  (∀ colName, snapshot_path appId colName = path appId (colName_string colName))
  ∧ (∀ c1 c2, snapshot_path appId c1 = snapshot_path appId c2 → c1 = c2)
  ∧ (∀ name1 name2, path appId name1 = path appId name2 → name1 = name2)
  ∧ appId ≠ ""
  ∧ (falsy VITE_APP_ID = true → appId = "default-agency-app")
  ∧ (∀ s, VITE_APP_ID = Some s → s ≠ "" → appId = s).
Proof.
  intros appId.
  assert (Hpath : ∀ name1 name2, path appId name1 = path appId name2 → name1 = name2).
  { unfold path. intros name1 name2 H.
    apply (inj (String.append "artifacts/")) in H.
    apply (inj (String.append appId)) in H.
    apply (inj (String.append "/")) in H. exact H. }
  split; [reflexivity |]. split; [| split; [exact Hpath |]].
  - intros c1 c2 H. apply colName_string_inj, Hpath. exact H.
  - subst appId. unfold appId_of, falsy. destruct VITE_APP_ID as [s |].
    + destruct (bool_decide (s = "")) eqn:Hs.
      * split; [discriminate |]. split; [reflexivity |].
        intros s' [= <-] Hne. apply bool_decide_eq_true in Hs. contradiction.
      * apply bool_decide_eq_false in Hs.
        split; [exact Hs |]. split; [discriminate |]. intros s' [= <-] _. reflexivity.
    + split; [discriminate |]. split; [reflexivity |]. discriminate.
Qed.

Lemma paths_agree_and_differ_witness :
  falsy (Some "") = true
  ∧ appId_of (Some "") = "default-agency-app"
  ∧ appId_of (Some "agency-prod") = "agency-prod".
Proof.
  split; [reflexivity |]. split.
  - pose proof (paths_agree_and_differ (Some "")) as (_ & _ & _ & _ & Hdefault & _).
    apply Hdefault. reflexivity.
  - apply (proj2 (proj2 (proj2 (proj2 (proj2
             (paths_agree_and_differ (Some "agency-prod")))))) "agency-prod");
      [reflexivity | discriminate].
Defined.

(** ** [useAuth] *)

(** X14.  The auth callback never rejects, whether the anonymous
    sign-in succeeds or fails.  After any number of auth state changes
    the hook's [user] is the last non-null user delivered (a change to
    no user starts a sign-in and leaves the previous user in place),
    and [loading] is false as soon as one callback has run. *)
Theorem auth_changes_settle {Backend Credential : Type}
        (signInAnonymously : Async.M Backend Credential)
        (users : list (option UseAuth.User)) (a : UseAuth.AuthState) (st : Backend) :
  ∃ st',
    UseAuth.authChanges signInAnonymously users a st
    = (Resolved (UseAuth.mkAuthState
                   (UseAuth.last_user users (UseAuth.user a))
                   (match users with [] => UseAuth.loading a | _ :: _ => false end)),
       st').
Proof.
  revert a st. induction users as [| currentUser users IH]; intros a st.
  - exists st. destruct a. reflexivity.
  - assert (Hcb : ∃ st1,
               UseAuth.authCallback signInAnonymously currentUser a st
               = (Resolved (UseAuth.mkAuthState
                              (from_option Some (UseAuth.user a) currentUser) false), st1)).
    { unfold UseAuth.authCallback, Async.bind, Async.try_catch, Async.ret.
      destruct currentUser as [u |]; [exists st; reflexivity |].
      destruct (signInAnonymously st) as [[c | e] st1]; exists st1; reflexivity. }
    destruct Hcb as (st1 & Hcb).
    destruct (IH (UseAuth.mkAuthState
                    (from_option Some (UseAuth.user a) currentUser) false) st1)
      as (st' & Hrest).
    exists st'. cbn [UseAuth.authChanges]. unfold Async.bind at 1. rewrite Hcb, Hrest.
    cbn [UseAuth.user UseAuth.loading].
    destruct currentUser as [u |], users; reflexivity.
Qed.

(** ** What [App] shows *)

Section Everywhere.

Context (eager : Hook → bool).
Context (P : State → Prop).
Context (P_run_updater : ∀ n u s, P s → P (run_updater n u s)).

Lemma everywhere_foldl (n : nat) (q : list Update) (s : State) :
  P s → Forall (λ u, ∀ s', eagerState u = Some s' → P s') q →
  P (foldl (run_update n) s q).
Proof.
  revert s. induction q as [| u q IH]; intros s Hs Hq; simpl; [exact Hs |].
  apply Forall_cons in Hq as [Hu Hq]. apply IH; [| exact Hq].
  unfold run_update. destruct (eagerState u) as [s' |].
  - apply Hu. reflexivity.
  - apply P_run_updater, Hs.
Qed.

Lemma everywhere_setState (n : nat) (u : Updater) (h : Hook) :
  everywhere P h → everywhere P (setState eager n u h).
Proof.
  intros [Hs Hq]. split; [rewrite state_setState; exact Hs |].
  unfold eager_states, setState in *. destruct (queue h) as [| u0 q].
  - destruct (eager h); simpl; apply Forall_singleton; intros s' Heq; simpl in Heq.
    + injection Heq as <-. apply P_run_updater, Hs.
    + discriminate Heq.
  - cbn [queue]. apply Forall_app_2; [exact Hq |].
    apply Forall_singleton. intros s' Heq. discriminate Heq.
Qed.

Lemma everywhere_step (ev : Event) (h : Hook) :
  everywhere P h → everywhere P (step eager h ev).
Proof.
  assert (Hrender : ∀ h', everywhere P h' → everywhere P (render h')).
  { intros h' [Hs Hq]. split; [| apply Forall_nil_2]. apply everywhere_foldl; assumption. }
  assert (Hstop : ∀ h', everywhere P h' → everywhere P (stop h')).
  { intros h' H'. unfold stop. destruct (effect h'); exact H'. }
  intros H. destruct ev as [colName docs | colName | | | userId]; simpl step.
  - unfold onNext. destruct (effect h) as [e |]; [| exact H].
    destruct (mounted e); simpl; [| exact H].
    pose proof (everywhere_setState (loadedCollections e)
                  (MergeSnapshot colName (decode_docs docs)) h H) as H1.
    set (h1 := setState eager (loadedCollections e)
                 (MergeSnapshot colName (decode_docs docs)) h) in *.
    destruct (state_loading e); [| exact H1].
    destruct (_ =? _)%nat; [apply everywhere_setState |]; exact H1.
  - unfold onError. destruct (effect h) as [e |]; [| exact H].
    destruct (mounted e); [apply everywhere_setState, H | exact H].
  - apply Hrender, H.
  - apply Hstop, H.
  - unfold start. destruct (falsy userId); apply Hstop, Hrender, H.
Qed.

Lemma everywhere_run (evs : list Event) (h : Hook) :
  everywhere P h → everywhere P (run eager evs h).
Proof.
  revert h. induction evs as [| ev evs IH]; intros h H; [exact H |].
  apply (IH (step eager h ev)), everywhere_step, H.
Qed.

End Everywhere.

Lemma error_named_run_updater (n : nat) (u : Updater) (s : State) :
  error_named s → error_named (run_updater n u s).
Proof.
  intros [c Hc]. destruct u as [colName data | | colName].
  - exists c. simpl. rewrite error_set_slice. exact Hc.
  - exists c. exact Hc.
  - exists colName. reflexivity.
Qed.

Lemma App_error_named (currentPage : string) (auth : UseAuth.AuthState) (s : State) :
  error_named s →
  App currentPage auth s = Spinner
  ∨ ∃ colName, App currentPage auth s = DataError (error_message colName).
Proof.
  intros [c Hc]. unfold App. destruct (_ || _); [left; reflexivity | right].
  exists c. rewrite Hc. destruct c; reflexivity.
Qed.

(** X15.  Once a failure has been reported to a running effect and
    rendered, the application never shows a page again: whatever
    happens next (snapshots, failures, renders, cleanup, a change of
    identity), whatever the page and the auth state, [App] returns the
    spinner or the error screen with the message of a collection. *)
Theorem no_page_after_failure (eager : Hook → bool) (colName : Collection) (h : Hook)
        (evs : list Event) (currentPage : string) (auth : UseAuth.AuthState) :
  is_mounted h = true →
  let data := state (run eager evs (render (onError eager colName h))) in
  App currentPage auth data = Spinner
  ∨ ∃ failed, App currentPage auth data = DataError (error_message failed).
Proof.
  intros Hm data. apply App_error_named. subst data.
  apply (everywhere_run eager error_named error_named_run_updater).
  split; [| apply Forall_nil_2].
  rewrite (state_render_onError eager colName h Hm). exists colName. reflexivity.
Qed.

Lemma no_page_after_failure_witness :
  App "planning" (UseAuth.mkAuthState (Some (UseAuth.mkUser "u1")) false)
      (state (run at_call (one_by_one (map (λ c, (c, [doc_a])) collections))
                  (render (onError at_call Tickets started))))
  = DataError "Erreur de lecture tickets".
Proof.
  destruct (no_page_after_failure at_call Tickets started
              (one_by_one (map (λ c, (c, [doc_a])) collections))
              "planning" (UseAuth.mkAuthState (Some (UseAuth.mkUser "u1")) false)
              eq_refl) as [Hspin | [failed Herr]].
  - discriminate Hspin.
  - reflexivity.
Defined.

(** X16.  Until five snapshots have been delivered the application
    shows the spinner, whatever failures have been reported in the
    meantime and whatever the auth state: a failure reported that
    early is not shown. *)
Theorem spinner_hides_early_failures
        (eager : Hook → bool) (userId : option string) (evs : list Event)
        (currentPage : string) (auth : UseAuth.AuthState) :
  falsy userId = false →
  forallb is_live evs = true →
  (length (delivered evs) < 5)%nat →
  App currentPage auth (state (render (run eager evs (start userId useData_init))))
  = Spinner.
Proof.
  intros Hu Hlive Hlen. unfold App.
  rewrite (proj1 (loading_by_count eager userId useData_init evs Hu eq_refl eq_refl Hlive))
    by exact Hlen.
  rewrite orb_true_r. reflexivity.
Qed.

Lemma spinner_hides_early_failures_witness :
  let data := state (render (run at_call
                               [Snapshot Profiles [doc_a]; Snapshot Quotas [];
                                Failure Tickets; Snapshot Notes [doc_b]] started)) in
  error data = Some "Erreur de lecture tickets"
  ∧ App "dashboard" (UseAuth.mkAuthState (Some (UseAuth.mkUser "u1")) false) data
    = Spinner.
Proof.
  intros data. split; [reflexivity |].
  apply (spinner_hides_early_failures at_call (Some "u1")); [reflexivity .. | simpl; lia].
Defined.

(** X17.  [App] shows a page only when neither hook is loading, no
    error is recorded and a user is present; the page is then the one
    [renderPage] chooses, given the slices of the state and the uid of
    that user, beside the sidebar for the same page and user. *)
Theorem layout_only_when_ready (currentPage : string) (auth : UseAuth.AuthState)
        (data : State) (sidebar : SidebarView) (page : Pages.Element) :
  App currentPage auth data = Layout sidebar page ↔
  UseAuth.loading auth = false
  ∧ loading data = false
  ∧ falsy (error data) = true
  ∧ ∃ user, UseAuth.user auth = Some user
            ∧ sidebar = Sidebar currentPage (Some user)
            ∧ page = renderPage currentPage data user.
Proof.
  unfold App. split.
  - destruct (UseAuth.loading auth), (loading data); simpl; try discriminate.
    destruct (falsy (error data)); simpl; [| discriminate].
    destruct (UseAuth.user auth) as [user |]; [| discriminate].
    intros [= <- <-]. repeat split. exists user. repeat split.
  - intros (-> & -> & -> & user & -> & -> & ->). reflexivity.
Qed.

Lemma layout_only_when_ready_witness :
  App "notes" (UseAuth.mkAuthState (Some (UseAuth.mkUser "u1")) false)
      (state (run at_call (one_by_one (map (λ c, (c, [doc_a])) collections)) started))
  = Layout (Sidebar "notes" (Some (UseAuth.mkUser "u1")))
           (Pages.Notes [decode doc_a] "u1").
Proof.
  apply (layout_only_when_ready "notes"
           (UseAuth.mkAuthState (Some (UseAuth.mkUser "u1")) false)).
  split; [reflexivity |]. split; [reflexivity |]. split; [reflexivity |].
  exists (UseAuth.mkUser "u1"). split; [reflexivity |]. split; reflexivity.
Defined.

(** ** Navigation *)

Lemma navigate_entry (clicks : list nat) :
  navigate clicks ∈ nav_entries.*2.
Proof.
  unfold navigate.
  assert (H0 : "dashboard" ∈ nav_entries.*2) by (apply (bool_decide_unpack _); reflexivity).
  revert H0. generalize "dashboard". induction clicks as [| i clicks IH]; intros p Hp.
  - exact Hp.
  - apply IH. destruct (nav_entries !! i) as [[l q] |] eqn:Hi; [| exact Hp].
    change (q ∈ snd <$> nav_entries).
    apply list_elem_of_fmap. exists (l, q). split; [reflexivity |].
    apply list_elem_of_lookup. exists i. exact Hi.
Qed.

(** X18.  Whatever sidebar items are clicked, in whatever order, the
    current page is the page of one of the six items, exactly one item
    is highlighted, and the component shown is the one of that item and
    of no other item: no item falls through to the default branch of
    [renderPage].  A page name that is none of the six shows the
    dashboard. *)
Theorem navigation_stays_on_menu (clicks : list nat) (data : State)
        (user : UseAuth.User) :
  let currentPage := navigate clicks in
  currentPage ∈ nav_entries.*2
  ∧ length (filter (λ item, nav_active item = true)
                   (nav_items (Sidebar currentPage (Some user)))) = 1%nat
  ∧ (∀ other, other ∈ nav_entries.*2 →
              Pages.component (renderPage other data user)
              = Pages.component (renderPage currentPage data user) →
              other = currentPage)
  ∧ (∀ name, name ∉ nav_entries.*2 →
             Pages.component (renderPage name data user) = "Dashboard").
Proof.
  intros currentPage. pose proof (navigate_entry clicks) as Hin. fold currentPage in Hin.
  split; [exact Hin |]. clearbody currentPage.
  assert (Hsix : ∀ p, p ∈ nav_entries.*2 →
                      p = "dashboard" ∨ p = "timetracking" ∨ p = "planning"
                      ∨ p = "notes" ∨ p = "agency" ∨ p = "settings").
  { intros p Hp. cbn in Hp. repeat (apply elem_of_cons in Hp as [-> | Hp]; [tauto |]).
    apply elem_of_nil in Hp. contradiction. }
  split; [| split].
  - destruct (Hsix _ Hin) as [-> | [-> | [-> | [-> | [-> | ->]]]]]; reflexivity.
  - intros other Hother Hsame.
    destruct (Hsix _ Hin) as [-> | [-> | [-> | [-> | [-> | ->]]]]];
      destruct (Hsix _ Hother) as [-> | [-> | [-> | [-> | [-> | ->]]]]];
      (reflexivity || discriminate Hsame).
  - intros name Hname. unfold renderPage.
    repeat (rewrite bool_decide_eq_false_2;
            [| intros ->; apply Hname, (bool_decide_unpack _); reflexivity]).
    reflexivity.
Qed.

Lemma navigation_stays_on_menu_witness :
  navigate [3; 9; 1] = "timetracking"
  ∧ ("xyz" ∉ nav_entries.*2)
  ∧ Pages.component (renderPage "xyz" initialState (UseAuth.mkUser "u1")) = "Dashboard".
Proof.
  split; [reflexivity |].
  assert (Hout : "xyz" ∉ nav_entries.*2).
  { intros Hin. apply (bool_decide_pack _) in Hin. vm_compute in Hin. exact Hin. }
  split; [exact Hout |].
  apply (navigation_stays_on_menu [] initialState (UseAuth.mkUser "u1")). exact Hout.
Defined.

(** ** The uid in the sidebar *)

Lemma substring_prefix (n : nat) (s : string) :
  ∃ rest, s = String.append (String.substring 0 n s) rest
          ∧ String.length (String.substring 0 n s) = min n (String.length s).
Proof.
  revert n. induction s as [| a s IH]; intros n.
  - exists "". destruct n; split; reflexivity.
  - destruct n as [| n].
    + exists (String a s). split; reflexivity.
    + destruct (IH n) as (rest & Hrest & Hlen). exists rest. split.
      * change (String a s = String a (String.append (String.substring 0 n s) rest)).
        f_equal. exact Hrest.
      * simpl. f_equal. exact Hlen.
Qed.

(** X19.  The sidebar shows a prefix of the uid of at most eight
    characters, the whole uid when it is shorter, and nothing, without
    failing, when there is no user. *)
Theorem uid_shown_is_prefix (currentPage : string) (user : UseAuth.User) :
  (∃ shown rest,
     uid_shown (Sidebar currentPage (Some user)) = Some shown
     ∧ UseAuth.uid user = String.append shown rest
     ∧ String.length shown = min 8 (String.length (UseAuth.uid user)))
  ∧ uid_shown (Sidebar currentPage None) = None.
Proof.
  split; [| reflexivity].
  destruct (substring_prefix 8 (UseAuth.uid user)) as (rest & Hrest & Hlen).
  exists (String.substring 0 8 (UseAuth.uid user)), rest.
  split; [reflexivity |]. split; assumption.
Qed.
